(** * JLC2KiCadLib.symbol.symbol: symbol record synthesis and library merge

  A shallow embedding of [symbol.py]: the title sanitiser, the property
  block synthesiser [get_type_values_properties], the multi-unit assembler
  [create_symbol] and the merge engine [update_library], with the
  properties of the specification stated and settled on them.

  Text is a list of characters.  A library file is read in binary mode and
  decoded, and what is written is encoded again; the model identifies the
  bytes of a file with its text.  For a file that is valid UTF-8 nothing is
  lost: what the code looks for is ASCII around the title, so a search over
  the decoded text and a search over the bytes find the same spans.  A file
  that does not decode is not modelled.

  The file system is a map from paths to the contents of the regular files
  and a set of directories, a path being the text the code builds.  A file
  is created only below a directory; the chain of directories above
  [output_dir/symbol_path] is not modelled.  *)

From Stdlib Require Import ZArith Ascii String DecimalString.
From stdpp Require Import base option list gmap strings.

Open Scope list_scope.

(** ** Text *)

Abbreviation text := (list ascii).
Abbreviation txt := list_ascii_of_string.

Module Py.

(** [s.startswith(w)] *)
Fixpoint startswith (w s : text) : bool :=
  match w, s with
  | [], _ => true
  | a :: w', b :: s' => Ascii.eqb a b && startswith w' s'
  | _ :: _, [] => false
  end.

(** [s.find(w)], [None] standing for Python's -1 *)
Fixpoint find (w s : text) : option nat :=
  if startswith w s then Some 0
  else match s with
       | [] => None
       | _ :: s' => S <$> find w s'
       end.

(** [w in s] *)
Definition contains (w s : text) : bool :=
  match find w s with Some _ => true | None => false end.

(** [s.rfind(c)] for a one-character needle; -1 when absent *)
Fixpoint rfind_from (c : ascii) (s : text) (i : Z) (last : Z) : Z :=
  match s with
  | [] => last
  | a :: s' => rfind_from c s' (i + 1) (if Ascii.eqb a c then i else last)
  end.

Definition rfind (c : ascii) (s : text) : Z := rfind_from c s 0 (-1).

(** [s[:i]]: a negative bound counts from the end, and is clamped at 0 *)
Definition slice_to (s : text) (i : Z) : text :=
  let n := Z.of_nat (length s) in
  let j := if (i <? 0)%Z then Z.max 0 (i + n) else i in
  take (Z.to_nat j) s.

(** [s.replace(old, new)] for a one-character [old] *)
Definition replace (old : ascii) (new : text) (s : text) : text :=
  flat_map (fun c => if Ascii.eqb c old then new else [c]) s.

(** [sep.join(parts)] *)
Fixpoint join (sep : text) (parts : list text) : text :=
  match parts with
  | [] => []
  | [p] => p
  | p :: rest => p ++ sep ++ join sep rest
  end.

(** [enumerate(l)] *)
Fixpoint enumerate_from {A} (i : Z) (l : list A) : list (Z * A) :=
  match l with
  | [] => []
  | x :: l' => (i, x) :: enumerate_from (i + 1) l'
  end.

Definition enumerate {A} (l : list A) : list (Z * A) := enumerate_from 0 l.

(** [str(n)] for an integer *)
Definition str_int (n : Z) : text := txt (NilZero.string_of_int (Z.to_int n)).

End Py.

(** ** Regular expressions: the fragment of [re] that [update_library] uses

  The matcher is the backtracking one of [re]: alternatives are tried left
  to right, a lazy star tries to stop before it tries one more iteration,
  and the first success wins.  [k] is what remains to be matched after the
  expression; the answer is the text left after the whole match. *)

Module Re.

Inductive regex : Type :=
| Chr (c : ascii)              (* a literal character *)
| Dot                          (* [.] under DOTALL: any character *)
| Eps                          (* the empty pattern *)
| Seq (r1 r2 : regex)
| Alt (r1 r2 : regex)          (* [r1|r2] *)
| LazyStar (r : regex).        (* [r*?] *)

Fixpoint lit (w : text) : regex :=
  match w with
  | [] => Eps
  | c :: w' => Seq (Chr c) (lit w')
  end.

(** The loop of [r*?]: stop if the rest matches here, else take one more
    [r], which has to consume something. *)
Fixpoint star_loop (step : text -> (text -> option text) -> option text)
    (k : text -> option text) (fuel : nat) (s : text) : option text :=
  match k s with
  | Some rest => Some rest
  | None =>
      match fuel with
      | 0 => None
      | S fuel' =>
          step s (fun s' =>
            if length s' <? length s then star_loop step k fuel' s' else None)
      end
  end.

Fixpoint run (r : regex) (s : text) (k : text -> option text) : option text :=
  match r with
  | Chr c =>
      match s with
      | a :: s' => if Ascii.eqb a c then k s' else None
      | [] => None
      end
  | Dot => match s with _ :: s' => k s' | [] => None end
  | Eps => k s
  | Seq r1 r2 => run r1 s (fun s' => run r2 s' k)
  | Alt r1 r2 =>
      match run r1 s k with
      | Some rest => Some rest
      | None => run r2 s k
      end
  | LazyStar r1 => star_loop (run r1) k (length s) s
  end.

(** The first place, going right from [s], at which [k] succeeds: what a
    lazy star over any character comes to. *)
Fixpoint first_stop (k : text -> option text) (s : text) : option text :=
  match k s with
  | Some rest => Some rest
  | None =>
      match s with
      | [] => None
      | _ :: s' => first_stop k s'
      end
  end.

(** [pattern.match(s)]: the text after the match *)
Definition match_at (r : regex) (s : text) : option text := run r s Some.

(** [pattern.search(s)]: the text before the leftmost match and after it *)
Fixpoint search (r : regex) (s : text) : option (text * text) :=
  match match_at r s with
  | Some rest => Some ([], rest)
  | None =>
      match s with
      | [] => None
      | c :: s' => prod_map (cons c) id <$> search r s'
      end
  end.

(** Characters with a meaning in a pattern.  [{] opens a repeat only when a
    digit or a comma follows; the model is conservative and takes a title
    as a literal when it has none of these and no such brace. *)
Definition special (c : ascii) : bool :=
  existsb (Ascii.eqb c) (txt ".\[()*+?^$|").

Definition digit_or_comma (c : ascii) : bool :=
  existsb (Ascii.eqb c) (txt "0123456789,").

Fixpoint literal_text (w : text) : bool :=
  match w with
  | [] => true
  | c :: w' =>
      negb (special c)
      && (if Ascii.eqb c "{"%char
          then match w' with d :: _ => negb (digit_or_comma d) | [] => true end
          else true)
      && literal_text w'
  end.

(** A replacement template without a backslash stands for itself. *)
Definition literal_template (repl : text) : bool :=
  negb (existsb (Ascii.eqb "\"%char) repl).

(** [re.sub(pattern, repl, s, count=1)] for a compiled pattern and a
    literal template *)
Definition sub1 (r : regex) (repl s : text) : text :=
  match search r s with
  | Some (before, after) => before ++ repl ++ after
  | None => s
  end.

End Re.

(** ** The library container *)

Definition LF : ascii := "010"%char.
Definition DQ : ascii := "034"%char.

(** [f'"{t}"'] *)
Definition quoted (t : text) : text := DQ :: t ++ [DQ].

Definition template_lib_header : text :=
  txt "(kicad_symbol_lib (version 20210201) (generator TousstNicolas/JLC2KiCad_lib)"
  ++ [LF].

Definition template_lib_footer : text := txt ")" ++ [LF].

(** What is looked for to decide that a record is there:
    [f'symbol "{component_title}"'] *)
Definition record_mark (component_title : text) : text :=
  txt "symbol " ++ quoted component_title.

(** The two literal ends of the pattern
    [rf'  \(symbol "{component_title}" (\n|.)*?\n  \)'] *)
Definition record_opening (component_title : text) : text :=
  txt "  (symbol " ++ quoted component_title ++ txt " ".

Definition record_terminator : text := LF :: txt "  )".

(** The pattern, for a title that is a literal of the pattern language. *)
Definition record_pattern (component_title : text) : option Re.regex :=
  if Re.literal_text component_title
  then Some (Re.Seq (Re.lit (record_opening component_title))
              (Re.Seq (Re.LazyStar (Re.Alt (Re.Chr LF) Re.Dot))
                      (Re.lit record_terminator)))
  else None.

(** What [update_library] decides to do with the content it has read. *)
Inductive edit : Type :=
| Skip                           (* return, the file is left as it is *)
| Rewrite (sub : text)           (* seek(0), truncate(), write(sub) *)
| Overwrite (new_content : text) (* seek(0), write(new_content) *)
| OutsideModel.                  (* a pattern or template beyond the fragment *)

Definition update_library_edit
    (component_title template_lib_component : text) (skip_existing : bool)
    (file_content : text) : edit :=
  if Py.contains (record_mark component_title) file_content then
    if skip_existing then Skip
    else
      match record_pattern component_title with
      | Some pattern =>
          if Re.literal_template template_lib_component
          then Rewrite (Re.sub1 pattern template_lib_component file_content)
          else OutsideModel
      | None => OutsideModel
      end
  else
    let new_content :=
      Py.slice_to file_content (Py.rfind ")"%char file_content) in
    Overwrite (new_content ++ template_lib_component ++ template_lib_footer).

(** The content of the file once the edit is done; writing at offset 0
    without truncating keeps what the old content has beyond the new one. *)
Definition apply_edit (e : edit) (old : text) : option text :=
  match e with
  | Skip => Some old
  | Rewrite sub => Some sub
  | Overwrite new_content => Some (new_content ++ drop (length new_content) old)
  | OutsideModel => None
  end.

(** The merge as a function from content to content. *)
Definition merged
    (component_title template_lib_component : text) (skip_existing : bool)
    (file_content : text) : option text :=
  apply_edit
    (update_library_edit component_title template_lib_component
       skip_existing file_content)
    file_content.

(** Where the engine finds the place of a record in a container that reads
    [before ++ span ++ after]: either the leftmost opening for the name
    starts the record and the first terminator line after it ends it, or
    the name is nowhere in the container and the place is the empty span in
    front of the trailing sentinel. *)
Inductive merge_site (component_title template_lib_component : text)
    : text -> text -> text -> Prop :=
| site_of_record pre body post :
    Re.literal_text component_title = true ->
    Re.literal_template template_lib_component = true ->
    Py.find (record_opening component_title)
      (pre ++ record_opening component_title ++ body
           ++ record_terminator ++ post) = Some (length pre) ->
    Py.find record_terminator (body ++ record_terminator ++ post)
      = Some (length body) ->
    merge_site component_title template_lib_component
      pre (record_opening component_title ++ body ++ record_terminator) post
| site_before_sentinel content :
    Py.contains (record_mark component_title)
      (content ++ template_lib_footer) = false ->
    merge_site component_title template_lib_component
      content [] template_lib_footer.

(** The text that opens a record at the top level of a container, whatever
    the name: a line that starts with two spaces and [(symbol]. *)
Definition record_line : text := LF :: txt "  (symbol ".

(** The place of the merge in a container that reads
    [pre ++ span ++ post], told from the record itself and from what stands
    in front of it.  Either the span is a record of the name in the layout
    of the pattern: its opening, a body, the terminator line; no opening
    for the name before it; no terminator line and no line that opens a
    record inside the body.  Or the text of the mark is nowhere, and the
    span is the empty one in front of the sentinel. *)
Inductive record_place (component_title template_lib_component : text)
    : text -> text -> text -> Prop :=
| place_of_record pre body post :
    Re.literal_text component_title = true ->
    Re.literal_template template_lib_component = true ->
    Py.find (record_opening component_title)
      (pre ++ record_opening component_title) = Some (length pre) ->
    Py.find record_terminator (body ++ record_terminator)
      = Some (length body) ->
    Py.contains record_line body = false ->
    record_place component_title template_lib_component
      pre (record_opening component_title ++ body ++ record_terminator) post
| place_before_sentinel pre :
    Py.contains (record_mark component_title)
      (pre ++ template_lib_footer) = false ->
    record_place component_title template_lib_component
      pre [] template_lib_footer.

(** ** The file system *)

Record filesystem : Type := Filesystem {
  files : gmap text text;      (* regular files and their content *)
  dirs : gset text             (* directories *)
}.

Definition path_exists (p : text) (fs : filesystem) : bool :=
  bool_decide (is_Some (files fs !! p)) || bool_decide (p ∈ dirs fs).

Definition write_file (p content : text) (fs : filesystem) : filesystem :=
  Filesystem (<[p := content]> (files fs)) (dirs fs).

Definition makedirs (p : text) (fs : filesystem) : filesystem :=
  Filesystem (files fs) ({[p]} ∪ dirs fs).

Definition is_dir (p : text) (fs : filesystem) : bool :=
  bool_decide (p ∈ dirs fs).

(** [os.path.exists] of a path right below [dir]: there is nothing below a
    path that is not a directory. *)
Definition exists_in (dir p : text) (fs : filesystem) : bool :=
  is_dir dir fs && path_exists p fs.

(** How a call ends. *)
Inductive outcome : Type :=
| Returned                 (* falls off the end, or a bare [return] *)
| ReturnedEmpty            (* [return ()] *)
| NameError                (* a local read before it was bound *)
| OSError                  (* [open] failed *)
| Beyond.                  (* the call left the modelled fragment *)

(** [f"{output_dir}/{symbol_path}/{library_name}.kicad_sym"] *)
Definition library_path (output_dir symbol_path library_name : text) : text :=
  output_dir ++ txt "/" ++ symbol_path ++ txt "/" ++ library_name
  ++ txt ".kicad_sym".

Definition update_library
    (library_name symbol_path component_title template_lib_component
       output_dir : text)
    (skip_existing : bool) (fs : filesystem) : outcome * filesystem :=
  let p := library_path output_dir symbol_path library_name in
  match files fs !! p with
  | None => (OSError, fs)
  | Some file_content =>
      match update_library_edit component_title template_lib_component
              skip_existing file_content with
      | Skip => (Returned, fs)
      | Rewrite sub => (Returned, write_file p sub fs)
      | Overwrite new_content =>
          (Returned,
           write_file p (new_content ++ drop (length new_content) file_content) fs)
      | OutsideModel => (Beyond, fs)
      end
  end.

(** ** The property block synthesiser *)

(** One entry of the list comprehension of [get_type_values_properties]. *)
Definition property_entry (type_value : text * text) (id : Z) : text :=
  txt "(property " ++ quoted (fst type_value) ++ txt " "
  ++ quoted (snd type_value) ++ txt " (id " ++ Py.str_int id
  ++ txt ") (at 0 0 0)" ++ [LF]
  ++ txt "      (effects (font (size 1.27 1.27)) hide)" ++ [LF]
  ++ txt "    )".

Definition get_type_values_properties
    (start_index : Z) (component_types_values : list (text * text)) : text :=
  Py.join [LF]
    (map (fun it : Z * (text * text) =>
            property_entry (snd it) (start_index + fst it))
         (Py.enumerate component_types_values)).

(** ** The assembler *)

Definition supported_value_types : list text :=
  [txt "Resistance"; txt "Capacitance"; txt "Inductance"; txt "Frequency"].

(** The chain of [replace] calls that makes [component_title] out of the
    fetched title. *)
Definition sanitized_title (title : text) : text :=
  Py.replace DQ (txt "{dblquote}")
    (Py.replace ":"%char (txt "{colon}")
      (Py.replace ">"%char (txt "{gt}")
        (Py.replace "<"%char (txt "{lt}")
          (Py.replace "\"%char (txt "{backslash}")
            (Py.replace "/"%char (txt "{slash}")
              (Py.replace "."%char (txt "_")
                (Py.replace " "%char (txt "_") title))))))).

(** The sanitiser read character by character: what one character of the
    title becomes. *)
Definition escape_token (c : ascii) : text :=
  if Ascii.eqb c " "%char then txt "_"
  else if Ascii.eqb c "."%char then txt "_"
  else if Ascii.eqb c "/"%char then txt "{slash}"
  else if Ascii.eqb c "\"%char then txt "{backslash}"
  else if Ascii.eqb c "<"%char then txt "{lt}"
  else if Ascii.eqb c ">"%char then txt "{gt}"
  else if Ascii.eqb c ":"%char then txt "{colon}"
  else if Ascii.eqb c DQ then txt "{dblquote}"
  else [c].

(** A token in brackets: [{name}]. *)
Definition bracketed (t : text) : bool :=
  match t with
  | c :: rest => Ascii.eqb c "{"%char && Py.startswith (txt "}") (rev rest)
  | [] => false
  end.

(** The local class [kicad_symbol]: the buffer the shape handlers write to. *)
Record kicad_symbol : Type := KicadSymbol {
  drawing : text;
  pinNamesHide : text;
  pinNumbersHide : text
}.

Definition kicad_symbol_init : kicad_symbol :=
  KicadSymbol [] (txt "(pin_names hide)") (txt "(pin_numbers hide)").

Definition draw (more : text) (ks : kicad_symbol) : kicad_symbol :=
  KicadSymbol (drawing ks ++ more) (pinNamesHide ks) (pinNumbersHide ks).

(** What of the decoded answer of the service the code reads:
    [result.title], [result.packageDetail.dataStr.head.c_para.pre],
    [result.dataStr.shape], [result.dataStr.head.x], [.y] and [.c_para]. *)
Record component_data : Type := ComponentData {
  title : text;
  pre : text;
  shape : list text;
  head_x : text;
  head_y : text;
  c_para : gmap text text
}.

Record response : Type := Response {
  status_code : Z;
  content : component_data
}.

(** [requests.codes.ok] *)
Definition codes_ok : Z := 200.

(** A shape handler: the arguments of the primitive, the translation, and
    the buffer, which it updates. *)
Definition handler : Type := list text -> text * text -> kicad_symbol -> kicad_symbol.

(** The locals of [create_symbol] that live across iterations; a local that
    is bound only inside the loop is [None] until it is bound. *)
Record locals : Type := Locals {
  the_symbol : kicad_symbol;
  ComponentName : text;
  symmbol_prefix : option text;
  component_types_values : option (list (text * text));
  value : option text;
  datasheet_link : text;
  library_name : text;
  filename : option text
}.

Definition is_empty (t : text) : bool :=
  match t with [] => true | _ => false end.

Definition text_eqb (a b : text) : bool := bool_decide (a = b).

(** [tuple] of the pairs [(value_type, c_para[value_type])] for the supported
    types that the header has. *)
Definition header_types_values (d : component_data) : list (text * text) :=
  flat_map (fun value_type =>
              match c_para d !! value_type with
              | Some v => [(value_type, v)]
              | None => []
              end)
           supported_value_types.

(** The template of one record, [template_lib_component]. *)
Definition render_component
    (ComponentName : text) (ks : kicad_symbol)
    (symmbol_prefix value footprint_name datasheet_link component_id : text)
    (component_types_values : list (text * text)) : text :=
  txt "  (symbol " ++ quoted ComponentName ++ txt " " ++ pinNamesHide ks
  ++ txt " " ++ pinNumbersHide ks ++ txt " (in_bom yes) (on_board yes)" ++ [LF]
  ++ txt "    (property " ++ quoted (txt "Reference") ++ txt " "
  ++ quoted symmbol_prefix ++ txt " (id 0) (at 0 1.27 0)" ++ [LF]
  ++ txt "      (effects (font (size 1.27 1.27)))" ++ [LF]
  ++ txt "    )" ++ [LF]
  ++ txt "    (property " ++ quoted (txt "Value") ++ txt " "
  ++ quoted value ++ txt " (id 1) (at 0 -2.54 0)" ++ [LF]
  ++ txt "      (effects (font (size 1.27 1.27)))" ++ [LF]
  ++ txt "    )" ++ [LF]
  ++ txt "    (property " ++ quoted (txt "Footprint") ++ txt " "
  ++ quoted footprint_name ++ txt " (id 2) (at 0 -10.16 0)" ++ [LF]
  ++ txt "      (effects (font (size 1.27 1.27) italic) hide)" ++ [LF]
  ++ txt "    )" ++ [LF]
  ++ txt "    (property " ++ quoted (txt "Datasheet") ++ txt " "
  ++ quoted datasheet_link ++ txt " (id 3) (at -2.286 0.127 0)" ++ [LF]
  ++ txt "      (effects (font (size 1.27 1.27)) (justify left) hide)" ++ [LF]
  ++ txt "    )" ++ [LF]
  ++ txt "    (property " ++ quoted (txt "ki_keywords") ++ txt " "
  ++ quoted component_id ++ txt " (id 4) (at 0 0 0)" ++ [LF]
  ++ txt "      (effects (font (size 1.27 1.27)) hide)" ++ [LF]
  ++ txt "    )" ++ [LF]
  ++ txt "    (property " ++ quoted (txt "LCSC") ++ txt " "
  ++ quoted component_id ++ txt " (id 5) (at 0 0 0)" ++ [LF]
  ++ txt "      (effects (font (size 1.27 1.27)) hide)" ++ [LF]
  ++ txt "    )" ++ [LF]
  ++ txt "    " ++ get_type_values_properties 6 component_types_values
  ++ drawing ks ++ [LF]
  ++ txt "  )" ++ [LF].

(** [s.split(sep)] for a one-character separator *)
Fixpoint split (sep : ascii) (s : text) : list text :=
  match s with
  | [] => [[]]
  | c :: s' =>
      if Ascii.eqb c sep then [] :: split sep s'
      else match split sep s' with
           | seg :: segs => (c :: seg) :: segs
           | [] => [[c]]
           end
  end.

Section CreateSymbol.

(** The collaborators: the parts service, the registry of shape handlers
    ([symbol_handlers.handlers], a dictionary from type tag to handler) and
    the lookup in the local parts database. *)
Variable fetch : text -> response.
Variable handlers : text -> option handler.
Variable load_jlcparts_metadata : text -> text -> gmap text text.

(** The arguments of [create_symbol] that the loop only reads. *)
Variable symbol_component_uuid : list text.
Variable footprint_name symbol_path output_dir component_id jlcparts_db : text.
Variable skip_existing : bool.

(** One line of [symbol_shape]. *)
Definition draw_line (d : component_data) (ks : kicad_symbol) (line : text)
    : kicad_symbol :=
  let args := split "~"%char line in
  let model := hd [] args in
  match handlers model with
  | None => ks                            (* logged, skipped *)
  | Some h => h (tl args) (head_x d, head_y d) ks
  end.

(** [props]: what the parts database gives, when there is one. *)
Definition enrichment (fs : filesystem) : gmap text text :=
  if bool_decide (is_Some (files fs !! jlcparts_db))
  then load_jlcparts_metadata jlcparts_db component_id
  else ∅.

(** The drawing of one sub-part: the opening of the unit, the primitives of
    [symbol_shape] in order, the closing of the unit. *)
Definition unit_drawing (d : component_data) (component_title : text)
    (ks : kicad_symbol) : kicad_symbol :=
  let ks :=
    draw (LF :: txt "    (symbol " ++ DQ :: component_title ++ txt "_1" ++ [DQ])
         ks in
  let ks := fold_left (draw_line d) (shape d) ks in
  draw (LF :: txt "    )") ks.

(** The tail of the loop body, from the lookup in the parts database on. *)
Definition render_unit (fs : filesystem) (d : component_data)
    (component_title : text) (st : locals) : locals :=
  let props := enrichment fs in
  let value :=
    let v := default [] (props !! txt "value") in
    if is_empty v then ComponentName st else v in
  let datasheet_link := default (datasheet_link st) (props !! txt "datasheet") in
  let component_types_values :=
    default [] (component_types_values st)
    ++ [(txt "JLCDescription", default [] (props !! txt "description"));
        (txt "Manufacturer", default [] (props !! txt "manufacturer"));
        (txt "MFR.Part.#", default [] (props !! txt "mfr"))] in
  let library_name :=
    if is_empty (library_name st) then ComponentName st else library_name st in
  let filename := library_path output_dir symbol_path library_name in
  let ks := unit_drawing d component_title (the_symbol st) in
  Locals ks (ComponentName st) (symmbol_prefix st)
         (Some component_types_values) (Some value) datasheet_link
         library_name (Some filename).

(** The guard before [continue]. *)
Definition skipped (component_uuid : text) : bool :=
  (2 <=? length symbol_component_uuid)
  && text_eqb component_uuid (hd [] symbol_component_uuid).

(** One iteration; [None] is the [return ()] of a failed fetch. *)
Definition loop_body (fs : filesystem) (st : locals) (component_uuid : text)
    : option locals :=
  let response := fetch component_uuid in
  if (status_code response =? codes_ok)%Z then
    let d := content response in
    let symmbol_prefix := Py.replace "?"%char [] (pre d) in
    let component_title := sanitized_title (title d) in
    let component_types_values := header_types_values d in
    let named := is_empty (ComponentName st) in
    let ComponentName := if named then component_title else ComponentName st in
    let component_title :=
      if named then component_title ++ txt "_0" else component_title in
    let st :=
      Locals (the_symbol st) ComponentName (Some symmbol_prefix)
             (Some component_types_values) (value st) (datasheet_link st)
             (library_name st) (filename st) in
    if skipped component_uuid
    then Some st                           (* continue *)
    else Some (render_unit fs d component_title st)
  else None.

(** The two things an iteration has computed when it reaches the guard: the
    locals, and the label the unit is drawn under. *)
Definition at_guard (st : locals) (component_uuid : text) : locals :=
  let d := content (fetch component_uuid) in
  Locals (the_symbol st)
    (if is_empty (ComponentName st) then sanitized_title (title d)
     else ComponentName st)
    (Some (Py.replace "?"%char [] (pre d)))
    (Some (header_types_values d)) (value st) (datasheet_link st)
    (library_name st) (filename st).

Definition unit_label (st : locals) (component_uuid : text) : text :=
  let t := sanitized_title (title (content (fetch component_uuid))) in
  if is_empty (ComponentName st) then t ++ txt "_0" else t.

Fixpoint loop (fs : filesystem) (st : locals) (uuids : list text)
    : option locals :=
  match uuids with
  | [] => Some st
  | component_uuid :: rest =>
      match loop_body fs st component_uuid with
      | Some st' => loop fs st' rest
      | None => None
      end
  end.

(** The record text after the loop, if every name it reads is bound. *)
Definition template_lib_component (st : locals) : option text :=
  match symmbol_prefix st, value st, component_types_values st with
  | Some prefix, Some v, Some tvs =>
      Some (render_component (ComponentName st) (the_symbol st) prefix v
              footprint_name (datasheet_link st) component_id tvs)
  | _, _, _ => None
  end.

(** The locals on entry: the buffer, [ComponentName = ""], the arguments. *)
Definition locals_init (datasheet_link_arg library_name_arg : text) : locals :=
  Locals kicad_symbol_init [] None None None datasheet_link_arg
         library_name_arg None.

Definition create_symbol (datasheet_link_arg library_name_arg : text)
    (fs : filesystem) : outcome * filesystem :=
  let st0 := locals_init datasheet_link_arg library_name_arg in
  match loop fs st0 symbol_component_uuid with
  | None => (ReturnedEmpty, fs)
  | Some st =>
      match template_lib_component st, filename st with
      | Some record, Some filename =>
          let dir := output_dir ++ txt "/" ++ symbol_path in
          let fs := if path_exists dir fs then fs else makedirs dir fs in
          if exists_in dir filename fs then
            update_library (library_name st) symbol_path
              (ComponentName st) record output_dir skip_existing fs
          else if is_dir dir fs then
            (* open(filename, "w"), the header and the footer written *)
            update_library (library_name st) symbol_path
              (ComponentName st) record output_dir skip_existing
              (write_file filename
                 (template_lib_header ++ template_lib_footer) fs)
          else
            (* open(filename, "w") below a regular file *)
            (OSError, fs)
      | _, _ => (NameError, fs)
      end
  end.

(** The sub-parts that get drawn, each with the label it is drawn under,
    read off the list of identifiers: a sub-part that the guard skips still
    names the component when no name is set yet. *)
Fixpoint drawn_units (name : text) (uuids : list text)
    : list (component_data * text) :=
  match uuids with
  | [] => []
  | component_uuid :: rest =>
      let d := content (fetch component_uuid) in
      let t := sanitized_title (title d) in
      let name' := if is_empty name then t else name in
      let label := if is_empty name then t ++ txt "_0" else t in
      if skipped component_uuid then drawn_units name' rest
      else (d, label) :: drawn_units name' rest
  end.

Definition aggregate_drawing (units : list (component_data * text))
    (ks : kicad_symbol) : kicad_symbol :=
  fold_left (fun ks u => unit_drawing (fst u) (snd u) ks) units ks.

End CreateSymbol.

(** ** A small world to run the code in

    Three components of the parts service, a registry with one handler (a
    pin, drawn as one line with its first argument), no parts database. *)

Module Scenario.

Definition pin : handler :=
  fun data _ ks => draw (LF :: txt "      (pin " ++ hd [] data ++ txt ")") ks.

Definition handlers (model : text) : option handler :=
  if text_eqb model (txt "P") then Some pin else None.

Definition resistor : component_data :=
  ComponentData (txt "R 0603") (txt "R?") [txt "P~1~show"; txt "X~0"]
    (txt "400") (txt "300") ∅.

Definition capacitor : component_data :=
  ComponentData (txt "C:0402") (txt "C?") [txt "P~2~show"]
    (txt "400") (txt "300") {[ txt "Capacitance" := txt "100nF" ]}.

Definition untitled : component_data :=
  ComponentData [] (txt "U?") [] (txt "0") (txt "0") ∅.

Definition fetch (component_uuid : text) : response :=
  if text_eqb component_uuid (txt "u1") then Response 200 resistor
  else if text_eqb component_uuid (txt "u2") then Response 200 capacitor
  else if text_eqb component_uuid (txt "u0") then Response 200 untitled
  else Response 404 untitled.

Definition no_metadata (jlcparts_db component_id : text) : gmap text text := ∅.

Definition out : text := txt "out".
Definition sym : text := txt "symbol".
Definition db : text := txt "parts.sqlite".

(** [create_symbol] in this world, with footprint "F1", catalog id
    "C100001", an empty datasheet link and the library "lib". *)
Definition run (uuids : list text) (skip_existing : bool) (fs : filesystem)
    : outcome * filesystem :=
  create_symbol fetch handlers no_metadata uuids (txt "F1") sym out
    (txt "C100001") db skip_existing [] (txt "lib") fs.

(** The loop of that call alone. *)
Definition assemble (uuids : list text) (fs : filesystem) : option locals :=
  loop fetch handlers no_metadata uuids sym out (txt "C100001") db fs
    (locals_init [] (txt "lib")) uuids.

Definition lib_path : text := library_path out sym (txt "lib").

(** A disk with nothing on it, and one with an empty container. *)
Definition blank : filesystem := Filesystem ∅ ∅.

Definition empty_library : filesystem :=
  Filesystem {[ lib_path := template_lib_header ++ template_lib_footer ]} ∅.

(** The record [create_symbol] renders for the resistor alone. *)
Definition resistor_record : text :=
  render_component (txt "R_0603")
    (unit_drawing handlers resistor (txt "R_0603_0") kicad_symbol_init)
    (txt "R") (txt "R_0603") (txt "F1") [] (txt "C100001")
    [(txt "JLCDescription", []); (txt "Manufacturer", []);
     (txt "MFR.Part.#", [])].

(** The locals at the end of the loop for the resistor alone. *)
Definition resistor_locals : locals :=
  Locals (unit_drawing handlers resistor (txt "R_0603_0") kicad_symbol_init)
    (txt "R_0603") (Some (txt "R"))
    (Some [(txt "JLCDescription", []); (txt "Manufacturer", []);
           (txt "MFR.Part.#", [])])
    (Some (txt "R_0603")) [] (txt "lib") (Some lib_path).

(** One merge of it, replacing what is there. *)
Definition merge_resistor (fs : filesystem) : filesystem :=
  snd (update_library (txt "lib") sym (txt "R_0603") resistor_record out
         false fs).

(** A record written on one line, as a hand edit may leave it, and a record
    in the layout [create_symbol] writes. *)
Definition one_line_A : text :=
  txt "  (symbol " ++ quoted (txt "A") ++ txt " (in_bom yes) (on_board yes))"
  ++ [LF].

Definition record_A : text :=
  render_component (txt "A") kicad_symbol_init (txt "U") (txt "A") (txt "F1")
    [] (txt "C1") [].

Definition record_B : text :=
  render_component (txt "B") kicad_symbol_init (txt "U") (txt "B") (txt "F1")
    [] (txt "C2") [].

(** [record_B] between its opening and its terminator, and a second
    rendering of B, with another footprint. *)
Definition body_B : text :=
  take (length record_B - length (record_opening (txt "B"))
        - length record_terminator - 1)
       (drop (length (record_opening (txt "B"))) record_B).

Definition record_B' : text :=
  render_component (txt "B") kicad_symbol_init (txt "U") (txt "B") (txt "F2")
    [] (txt "C2") [].

Definition library_A_B : filesystem :=
  Filesystem
    {[ lib_path :=
         template_lib_header ++ one_line_A ++ record_B ++ template_lib_footer ]}
    ∅.

Definition library_B : filesystem :=
  Filesystem
    {[ lib_path := template_lib_header ++ record_B ++ template_lib_footer ]} ∅.

(** A third record, a new text for A, and a library that holds B, A and C
    in the layout [create_symbol] writes. *)
Definition record_C : text :=
  render_component (txt "C") kicad_symbol_init (txt "U") (txt "C") (txt "F1")
    [] (txt "C3") [].

Definition record_A' : text :=
  render_component (txt "A") kicad_symbol_init (txt "U") (txt "A") (txt "F2")
    [] (txt "C1") [].

Definition body_A : text :=
  take (length record_A - length (record_opening (txt "A"))
        - length record_terminator - 1)
       (drop (length (record_opening (txt "A"))) record_A).

Definition library_B_A_C : filesystem :=
  Filesystem
    {[ lib_path :=
         template_lib_header ++ record_B ++ record_A ++ record_C
         ++ template_lib_footer ]}
    ∅.

(** The library after the resistor has been merged into the empty one, and
    a record for a component whose name is the label of the resistor's
    unit. *)
Definition library_resistor : filesystem :=
  Filesystem
    {[ lib_path :=
         template_lib_header ++ resistor_record ++ template_lib_footer ]}
    ∅.

Definition unit_namesake_record : text :=
  render_component (txt "R_0603_0_1") kicad_symbol_init (txt "R")
    (txt "R_0603_0_1") (txt "F1") [] (txt "C100002") [].

End Scenario.

(** ** Notions the further properties are stated with *)

(** The first text of a list that is not empty. *)
Fixpoint first_nonempty (l : list text) : text :=
  match l with
  | [] => []
  | t :: l' => if is_empty t then first_nonempty l' else t
  end.

(** The characters the sanitiser replaces. *)
Definition unsafe_characters : text := txt " ./\<>:" ++ [DQ].

Module Cases.
Import Scenario.

(** A library whose closing parenthesis is followed by a hand-written note,
    one without any parenthesis, and a disk where the directory of the
    libraries is a regular file. *)
Definition note : text := LF :: txt "# checked by hand, keep this line".

Definition library_with_note : filesystem :=
  Filesystem {[ lib_path := template_lib_header ++ ")"%char :: note ]} ∅.


Definition under_file : filesystem :=
  Filesystem {[ out ++ txt "/" ++ sym := txt "x" ]} ∅.

(** The disk after the resistor has been synthesised on a blank one. *)
Definition after_first_run : filesystem := snd (run [txt "u1"] false blank).

End Cases.

(** * Properties *)

(** ** Searching in text *)

Module PyFacts.

Example rfind_sample :
  Py.rfind ")"%char (txt "(a (b))" ++ [LF]) = 6%Z
  /\ Py.rfind ")"%char (txt "abc") = (-1)%Z
  /\ Py.slice_to (txt "abc") (-1) = txt "ab"
  /\ Py.slice_to [] (-1) = [].
Proof. repeat split; reflexivity. Qed.

Lemma startswith_app (w s : text) : Py.startswith w (w ++ s) = true.
Proof.
  induction w as [|c w IH]; simpl; [done|].
  by rewrite Ascii.eqb_refl, IH.
Qed.

Lemma find_here (w s : text) : Py.find w (w ++ s) = Some 0.
Proof. destruct w; simpl; [by destruct s|]. by rewrite Ascii.eqb_refl, startswith_app. Qed.

Lemma find_first (w a s : text) :
  Py.find w (a ++ s) = Some (length a) ->
  forall i, i < length a -> Py.startswith w (drop i (a ++ s)) = false.
Proof.
  induction a as [|c a IH]; simpl; intros H i Hi; [lia|].
  destruct (Py.startswith w (c :: a ++ s)) eqn:E; [done|].
  destruct i as [|i]; [done|]. simpl.
  destruct (Py.find w (a ++ s)) as [m|] eqn:E'; simpl in H; [|done].
  injection H as ->. apply IH; [done|lia].
Qed.

Lemma contains_app (w a b : text) : Py.contains w (a ++ w ++ b) = true.
Proof.
  unfold Py.contains. induction a as [|c a IH]; simpl.
  - by rewrite find_here.
  - destruct (Py.startswith w (c :: a ++ w ++ b)); [done|].
    by destruct (Py.find w (a ++ w ++ b)).
Qed.

Lemma rfind_from_app c (a b : text) i last :
  Py.rfind_from c (a ++ b) i last
  = Py.rfind_from c b (i + Z.of_nat (length a)) (Py.rfind_from c a i last).
Proof.
  revert i last; induction a as [|x a IH]; intros i last; simpl.
  - f_equal; lia.
  - rewrite IH. f_equal. lia.
Qed.

Lemma startswith_length (w s : text) :
  Py.startswith w s = true -> length w <= length s.
Proof.
  revert s; induction w as [|c w IH]; intros [|a s]; simpl; try done; [lia|].
  intros [_ Hw]%andb_true_iff. apply IH in Hw. lia.
Qed.

(** What [startswith] answers depends on the first [length w] characters. *)
Lemma startswith_app_r (w s t : text) :
  length w <= length s -> Py.startswith w (s ++ t) = Py.startswith w s.
Proof.
  revert s; induction w as [|c w IH]; intros [|a s]; simpl; try done; [lia|].
  intros Hl. rewrite IH by lia. done.
Qed.

(** The first occurrence stays the first one when text is added behind. *)
Lemma find_app_r (w s t : text) n :
  Py.find w s = Some n -> Py.find w (s ++ t) = Some n.
Proof.
  revert n; induction s as [|a s IH]; intros n; cbn [Py.find app].
  - destruct (Py.startswith w []) eqn:E; [|done]. intros [= <-].
    destruct w; [|done]. by destruct t.
  - destruct (Py.startswith w (a :: s)) eqn:E.
    + intros [= <-]. change (a :: s ++ t) with ((a :: s) ++ t).
      rewrite startswith_app_r by (by apply startswith_length). by rewrite E.
    + destruct (Py.find w s) as [m|] eqn:Hm; [|done]. intros [= <-].
      change (a :: s ++ t) with ((a :: s) ++ t).
      assert (length w <= length (a :: s)) as Hl.
      { clear IH E. revert m Hm. induction s as [|b s IHs]; intros m.
        - cbn [Py.find]. destruct (Py.startswith w []) eqn:E; [|done].
          apply startswith_length in E. simpl in *. lia.
        - cbn [Py.find]. destruct (Py.startswith w (b :: s)) eqn:E.
          + apply startswith_length in E. simpl in *. lia.
          + destruct (Py.find w s) as [k|]; [|done]. intros _.
            specialize (IHs k eq_refl). simpl in *. lia. }
      rewrite startswith_app_r, E by done.
      by rewrite (IH m eq_refl).
Qed.

End PyFacts.

(** ** The matcher on the pattern of a record *)

Module ReFacts.
Import Re.

(** The lazy star stops at the first place where the rest matches. *)
Example search_sample :
  search (Seq (lit (txt "<")) (Seq (LazyStar (Alt (Chr LF) Dot)) (lit (txt ">"))))
         (txt "a<b>c>d")
  = Some (txt "a", txt "c>d").
Proof. reflexivity. Qed.

Lemma run_seq r1 r2 (s : text) k :
  run (Seq r1 r2) s k = run r1 s (fun s' => run r2 s' k).
Proof. reflexivity. Qed.

Lemma run_star r (s : text) k :
  run (LazyStar r) s k = star_loop (run r) k (length s) s.
Proof. reflexivity. Qed.

Lemma run_lit (w s : text) k :
  run (lit w) s k = if Py.startswith w s then k (drop (length w) s) else None.
Proof.
  revert s; induction w as [|c w IH]; intros s; simpl; [done|].
  destruct s as [|a s]; [done|].
  rewrite (Ascii.eqb_sym a c). destruct (Ascii.eqb c a); simpl; [apply IH|done].
Qed.

Lemma run_any c (s : text) k :
  run (Alt (Chr c) Dot) s k = match s with [] => None | _ :: s' => k s' end.
Proof.
  simpl. destruct s as [|a s]; [done|].
  destruct (Ascii.eqb a c); [|done]. by destruct (k s).
Qed.

Lemma star_any c k fuel (s : text) :
  length s <= fuel ->
  star_loop (run (Alt (Chr c) Dot)) k fuel s = first_stop k s.
Proof.
  revert s; induction fuel as [|fuel IH]; intros s Hs.
  - destruct s; [|simpl in Hs; lia]. simpl. by destruct (k []).
  - cbn [star_loop]. rewrite run_any.
    destruct s as [|a s]; cbn [first_stop]; destruct (k _); try done.
    assert ((length s <? length (a :: s)) = true) as ->
      by (apply Nat.ltb_lt; simpl; lia).
    apply IH. simpl in Hs; lia.
Qed.

Lemma first_stop_find (t s : text) n k :
  Py.find t s = Some n ->
  (forall r, k r = Some r) ->
  first_stop (fun s' => run (lit t) s' k) s = Some (drop (n + length t) s).
Proof.
  intros Hf Hk. revert n Hf; induction s as [|a s IH]; intros n; simpl.
  - rewrite run_lit. destruct (Py.startswith t []); [|done].
    intros [= <-]. by rewrite Hk.
  - rewrite run_lit. destruct (Py.startswith t (a :: s)).
    + intros [= <-]. by rewrite Hk.
    + destruct (Py.find t s) as [m|]; simpl; [|done].
      intros [= <-]. by apply IH.
Qed.

Lemma search_first (r : regex) (a s rest : text) :
  (forall i, i < length a -> match_at r (drop i (a ++ s)) = None) ->
  match_at r s = Some rest ->
  search r (a ++ s) = Some (a, rest).
Proof.
  induction a as [|c a IH]; intros Hno Hm.
  - simpl. destruct s; simpl; by rewrite Hm.
  - pose proof (Hno 0 ltac:(simpl; lia)) as H0. simpl in H0.
    simpl. rewrite H0, IH; [done| |done].
    intros i Hi. apply (Hno (S i)). simpl; lia.
Qed.

End ReFacts.

(** ** The merge engine *)

Section Merge.
Import PyFacts ReFacts.

Implicit Types (T R pre body post P c : text) (fs : filesystem).

Lemma pattern_match_at T p (s : text) :
  record_pattern T = Some p ->
  Re.match_at p s
  = if Py.startswith (record_opening T) s
    then Re.first_stop (fun s' => Re.run (Re.lit record_terminator) s' Some)
           (drop (length (record_opening T)) s)
    else None.
Proof.
  unfold record_pattern. destruct (Re.literal_text T); [|done].
  intros Hp.
  assert (p = Re.Seq (Re.lit (record_opening T))
                (Re.Seq (Re.LazyStar (Re.Alt (Re.Chr LF) Re.Dot))
                        (Re.lit record_terminator))) as -> by congruence.
  clear Hp. unfold Re.match_at.
  rewrite run_seq, run_lit.
  destruct (Py.startswith _ s); [|done].
  rewrite run_seq, run_star. by apply star_any.
Qed.

Lemma mark_in_opening T (a b : text) :
  Py.contains (record_mark T) (a ++ record_opening T ++ b) = true.
Proof.
  unfold record_opening.
  replace (a ++ (txt "  (symbol " ++ quoted T ++ txt " ") ++ b)
    with ((a ++ txt "  (") ++ record_mark T ++ (txt " " ++ b)).
  - apply contains_app.
  - unfold record_mark. rewrite <- !app_assoc. reflexivity.
Qed.

(** The replacement path on a record that the pattern delimits. *)
Lemma replace_span T R pre body post :
  Re.literal_text T = true ->
  Re.literal_template R = true ->
  Py.find (record_opening T)
    (pre ++ record_opening T ++ body ++ record_terminator ++ post)
    = Some (length pre) ->
  Py.find record_terminator (body ++ record_terminator ++ post)
    = Some (length body) ->
  update_library_edit T R false
    (pre ++ record_opening T ++ body ++ record_terminator ++ post)
  = Rewrite (pre ++ R ++ post).
Proof.
  intros HT HR Hopen Hterm. unfold update_library_edit.
  rewrite mark_in_opening.
  destruct (record_pattern T) as [p|] eqn:Hp;
    [|unfold record_pattern in Hp; by rewrite HT in Hp].
  rewrite HR. f_equal. unfold Re.sub1.
  rewrite (search_first p pre _ post); [done| |].
  - intros i Hi. rewrite (pattern_match_at T p _ Hp).
    by rewrite (find_first _ _ _ Hopen i Hi).
  - rewrite (pattern_match_at T p _ Hp), startswith_app.
    rewrite drop_app_length.
    rewrite (first_stop_find _ _ _ _ Hterm) by done.
    f_equal. rewrite <- drop_drop.
    rewrite drop_app_length. apply drop_app_length.
Qed.

Lemma rfind_sentinel P :
  Py.rfind ")"%char (P ++ template_lib_footer) = Z.of_nat (length P).
Proof. unfold Py.rfind. rewrite rfind_from_app. reflexivity. Qed.

(** The insertion path on a container that ends with the sentinel. *)
Lemma insert_edit T R skip P :
  Py.contains (record_mark T) (P ++ template_lib_footer) = false ->
  update_library_edit T R skip (P ++ template_lib_footer)
  = Overwrite (P ++ R ++ template_lib_footer).
Proof.
  intros Hno. unfold update_library_edit. rewrite Hno, rfind_sentinel.
  unfold Py.slice_to.
  assert ((Z.of_nat (length P) <? 0)%Z = false) as ->
    by (apply Z.ltb_ge; lia).
  by rewrite Nat2Z.id, take_app_length.
Qed.

Lemma overwrite_longer (new old : text) :
  length old <= length new -> new ++ drop (length new) old = new.
Proof. intros H. rewrite drop_ge by done. apply app_nil_r. Qed.

Lemma write_same p c fs :
  files fs !! p = Some c -> write_file p c fs = fs.
Proof.
  destruct fs as [f d]; simpl; intros H. unfold write_file; simpl.
  f_equal. by apply insert_id.
Qed.

(** [update_library] does to the file what [merged] does to its content. *)
Lemma update_library_merged lib sp T R out skip fs c (c' : text) :
  files fs !! library_path out sp lib = Some c ->
  merged T R skip c = Some c' ->
  update_library lib sp T R out skip fs
  = (Returned, write_file (library_path out sp lib) c' fs).
Proof.
  intros Hc. unfold merged, update_library. rewrite Hc.
  destruct (update_library_edit T R skip c); simpl; intros [= <-]; try done.
  by rewrite write_same.
Qed.

Lemma merged_at_site T R (before span after : text) :
  merge_site T R before span after ->
  merged T R false (before ++ span ++ after) = Some (before ++ R ++ after).
Proof.
  intros [pre body post HT HR Hopen Hterm | P Hno]; unfold merged.
  - rewrite <- !app_assoc. by rewrite replace_span.
  - simpl. rewrite insert_edit by done. simpl. f_equal.
    apply overwrite_longer. rewrite !length_app. simpl. lia.
Qed.

Lemma update_library_insert lib sp T R out skip fs P :
  files fs !! library_path out sp lib = Some (P ++ template_lib_footer) ->
  Py.contains (record_mark T) (P ++ template_lib_footer) = false ->
  update_library lib sp T R out skip fs
  = (Returned,
     write_file (library_path out sp lib) (P ++ R ++ template_lib_footer) fs).
Proof.
  intros Hc Hno. apply (update_library_merged _ _ _ _ _ _ _ _ _ Hc).
  unfold merged. rewrite insert_edit by done. simpl. f_equal.
  apply overwrite_longer. rewrite !length_app. simpl. lia.
Qed.

(** A record that ends, as the rendered ones do, with the terminator and a
    line feed comes back from a replacement with one more line feed behind
    it: the pattern stops at the terminator, the template goes one past. *)
Lemma replace_adds_line_feed T pre body post :
  let R := record_opening T ++ body ++ record_terminator ++ [LF] in
  Re.literal_text T = true ->
  Re.literal_template R = true ->
  Py.find (record_opening T) (pre ++ R ++ post) = Some (length pre) ->
  Py.find record_terminator (body ++ record_terminator ++ LF :: post)
    = Some (length body) ->
  merged T R false (pre ++ R ++ post) = Some (pre ++ R ++ LF :: post).
Proof.
  intros R HT HR Hopen Hterm.
  assert (pre ++ R ++ post
          = pre ++ record_opening T ++ body ++ record_terminator ++ LF :: post)
    as E by (unfold R; rewrite <- !app_assoc; reflexivity).
  rewrite E in Hopen |- *. unfold merged.
  by rewrite replace_span.
Qed.

(** C1 (the code departs from it): merging the resistor's record into an
    empty container and merging the same record again does not give the same
    container twice; the second merge, which takes the replacement path,
    leaves one more line feed between the record and the sentinel. *)
Theorem second_merge_differs :
  files (Scenario.merge_resistor Scenario.empty_library) !! Scenario.lib_path
    = Some (template_lib_header ++ Scenario.resistor_record
            ++ template_lib_footer)
  /\ files (Scenario.merge_resistor
              (Scenario.merge_resistor Scenario.empty_library))
       !! Scenario.lib_path
     = Some (template_lib_header ++ Scenario.resistor_record ++ [LF]
             ++ template_lib_footer)
  /\ Scenario.merge_resistor (Scenario.merge_resistor Scenario.empty_library)
     <> Scenario.merge_resistor Scenario.empty_library.
Proof.
  split; [vm_compute; reflexivity|].
  split; [vm_compute; reflexivity|].
  intros H. apply (f_equal (fun fs => files fs !! Scenario.lib_path)) in H.
  vm_compute in H. discriminate H.
Qed.

(** In the layout of the pattern, the place of a record is where the engine
    finds it. *)
Lemma place_is_site T R pre span post :
  record_place T R pre span post -> merge_site T R pre span post.
Proof.
  intros [pre' body post' HT HR Hopen Hterm _ | pre' Hno].
  - apply site_of_record; [done|done| |].
    + rewrite (app_assoc pre'). by apply find_app_r.
    + rewrite (app_assoc body). by apply find_app_r.
  - by apply site_before_sentinel.
Qed.

Lemma update_library_at_site lib sp T R out fs (before span after : text) :
  files fs !! library_path out sp lib = Some (before ++ span ++ after) ->
  merge_site T R before span after ->
  update_library lib sp T R out false fs
  = (Returned,
     write_file (library_path out sp lib) (before ++ R ++ after) fs).
Proof.
  intros Hc Hsite. eapply update_library_merged; [done|].
  by apply merged_at_site.
Qed.

(** C2, as amended: take a container that reads header, records before,
    span, separator, records after, rest.  If the span is a record of the
    name in the layout of the pattern (its opening, a body with no
    terminator line and no line that opens a record, the terminator line),
    the name and the new text are literal for the pattern language and no
    opening for the name stands before the span, or else the mark of the
    name is nowhere and the span is the empty one before the sentinel, then
    the merge writes header, records before, new text, separator, records
    after, rest: every other record is byte for byte where and what it
    was. *)
Theorem other_records_untouched lib sp T R out fs
    (H : text) (before after : list text) (span sep rest : text) :
  files fs !! library_path out sp lib
    = Some (H ++ concat before ++ span ++ sep ++ concat after ++ rest) ->
  record_place T R (H ++ concat before) span (sep ++ concat after ++ rest) ->
  update_library lib sp T R out false fs
  = (Returned,
     write_file (library_path out sp lib)
       (H ++ concat before ++ R ++ sep ++ concat after ++ rest) fs).
Proof.
  intros Hc Hplace. apply place_is_site in Hplace.
  rewrite (app_assoc H (concat before)) in Hc.
  rewrite (app_assoc H (concat before)).
  exact (update_library_at_site lib sp T R out fs _ _ _ Hc Hplace).
Qed.

(** C3: with skip-existing set and the mark of the name present in the
    container, [update_library] returns and the file system, the container
    with it, is what it was. *)
Theorem skip_existing_leaves_file lib sp T R out fs c :
  files fs !! library_path out sp lib = Some c ->
  Py.contains (record_mark T) c = true ->
  update_library lib sp T R out true fs = (Returned, fs).
Proof.
  intros Hc Hin. unfold update_library, update_library_edit.
  by rewrite Hc, Hin.
Qed.

(** Where the mark of the name is nowhere in a container that ends with the
    sentinel, the new record goes in front of the sentinel. *)
Lemma insert_before_sentinel lib sp T R out skip fs (H records : text) :
  files fs !! library_path out sp lib
    = Some (H ++ records ++ template_lib_footer) ->
  Py.contains (record_mark T) (H ++ records ++ template_lib_footer) = false ->
  update_library lib sp T R out skip fs
  = (Returned,
     write_file (library_path out sp lib)
       (H ++ records ++ R ++ template_lib_footer) fs).
Proof.
  intros Hc Hno. rewrite (app_assoc H records) in Hc, Hno |- *.
  by apply update_library_insert.
Qed.

(** C4 (the code departs from it): the library holds the record of the
    resistor and no record named R_0603_0_1; that name is only the label of
    the resistor's unit, four spaces in and with no space behind it.
    Merging a record named R_0603_0_1 finds the text of its mark in that
    label, takes the replacement path, matches nothing, and writes the
    content back as it was: the new record is not in the container. *)
Theorem unit_label_blocks_insertion :
  let content :=
    template_lib_header ++ Scenario.resistor_record ++ template_lib_footer in
  let after :=
    snd (update_library (txt "lib") Scenario.sym (txt "R_0603_0_1")
           Scenario.unit_namesake_record Scenario.out false
           Scenario.library_resistor) in
  files Scenario.library_resistor !! Scenario.lib_path = Some content
  /\ Py.contains (record_opening (txt "R_0603_0_1")) content = false
  /\ Py.contains
       (LF :: txt "  (symbol " ++ quoted (txt "R_0603_0_1")) content = false
  /\ Py.contains (record_mark (txt "R_0603_0_1")) content = true
  /\ files after !! Scenario.lib_path = Some content
  /\ files after !! Scenario.lib_path
     <> Some (template_lib_header ++ Scenario.resistor_record
              ++ Scenario.unit_namesake_record ++ template_lib_footer).
Proof.
  cbv zeta. split; [vm_compute; reflexivity|].
  split; [vm_compute; reflexivity|]. split; [vm_compute; reflexivity|].
  split; [vm_compute; reflexivity|]. split; [vm_compute; reflexivity|].
  vm_compute. discriminate.
Qed.

End Merge.

(** ** The sanitiser and the property block *)

Example sanitized_title_sample :
  sanitized_title (txt "LM358 v1.2/A<B>:x")
  = txt "LM358_v1_2{slash}A{lt}B{gt}{colon}x".
Proof. reflexivity. Qed.

Example get_type_values_properties_sample :
  get_type_values_properties 6 [(txt "Resistance", txt "10k"); (txt "Manufacturer", [])]
  = txt "(property " ++ quoted (txt "Resistance") ++ txt " "
    ++ quoted (txt "10k") ++ txt " (id 6) (at 0 0 0)" ++ [LF]
    ++ txt "      (effects (font (size 1.27 1.27)) hide)" ++ [LF]
    ++ txt "    )" ++ [LF]
    ++ txt "(property " ++ quoted (txt "Manufacturer") ++ txt " "
    ++ quoted [] ++ txt " (id 7) (at 0 0 0)" ++ [LF]
    ++ txt "      (effects (font (size 1.27 1.27)) hide)" ++ [LF]
    ++ txt "    )".
Proof. reflexivity. Qed.

Lemma sanitized_char (c : ascii) : sanitized_title [c] = escape_token c.
Proof. destruct c as [[] [] [] [] [] [] [] []]; reflexivity. Qed.

Lemma sanitized_cons c (t : text) :
  sanitized_title (c :: t) = sanitized_title [c] ++ sanitized_title t.
Proof.
  unfold sanitized_title, Py.replace.
  change (c :: t) with ([c] ++ t). by rewrite !flat_map_app.
Qed.

(** C7, as amended: the sanitised title is the title with every space and
    every period turned into an underscore, every slash, backslash, angle
    bracket, colon and double quote turned into its bracketed token, and
    every other character kept. *)
Theorem sanitized_title_by_char (t : text) :
  sanitized_title t = flat_map escape_token t.
Proof.
  induction t as [|c t IH]; [done|].
  rewrite sanitized_cons, sanitized_char, IH. reflexivity.
Qed.




(** ** The assembler *)

Section CreateSymbolFacts.

Variable fetch : text -> response.
Variable handlers : text -> option handler.
Variable load_jlcparts_metadata : text -> text -> gmap text text.
Variable symbol_component_uuid : list text.
Variable footprint_name symbol_path output_dir component_id jlcparts_db : text.
Variable skip_existing : bool.

Local Abbreviation body_ :=
  (loop_body fetch handlers load_jlcparts_metadata symbol_component_uuid
     symbol_path output_dir component_id jlcparts_db).
Local Abbreviation loop_ :=
  (loop fetch handlers load_jlcparts_metadata symbol_component_uuid
     symbol_path output_dir component_id jlcparts_db).
Local Abbreviation unit_ :=
  (render_unit handlers load_jlcparts_metadata symbol_path output_dir
     component_id jlcparts_db).
Local Abbreviation skipped_ := (skipped symbol_component_uuid).
Local Abbreviation props_ :=
  (enrichment load_jlcparts_metadata component_id jlcparts_db).
Local Abbreviation create_symbol_ :=
  (create_symbol fetch handlers load_jlcparts_metadata symbol_component_uuid
     footprint_name symbol_path output_dir component_id jlcparts_db
     skip_existing).
Local Abbreviation ok u := (status_code (fetch u) = codes_ok).
Local Abbreviation title_of u := (sanitized_title (title (content (fetch u)))).

Local Abbreviation headed := (at_guard fetch).
Local Abbreviation label := (unit_label fetch).

Lemma body_ok fs st u :
  ok u ->
  body_ fs st u
  = Some (if skipped_ u then headed st u
          else unit_ fs (content (fetch u)) (label st u) (headed st u)).
Proof.
  intros Hok. unfold loop_body. rewrite Hok, Z.eqb_refl.
  unfold at_guard, unit_label. by destruct (skipped_ u).
Qed.

Lemma body_failed fs st u : ~ ok u -> body_ fs st u = None.
Proof.
  intros Hko. unfold loop_body.
  by destruct (Z.eqb_spec (status_code (fetch u)) codes_ok).
Qed.

Lemma loop_failed fs st (l : list text) u :
  u ∈ l -> ~ ok u -> loop_ fs st l = None.
Proof.
  intros Hin Hko. revert st; induction l as [|x l IH]; intros st.
  - by apply not_elem_of_nil in Hin.
  - simpl. destruct (decide (ok x)) as [Hx|Hx].
    + rewrite body_ok by done. apply elem_of_cons in Hin as [->|Hin]; [done|].
      by apply IH.
    + by rewrite body_failed.
Qed.

(** C9: if the fetch of any sub-part of the list answers with a status that
    is not the success code, [create_symbol] returns the empty tuple and the
    file system is what it was: no library file is created and none is
    changed. *)
Theorem failed_fetch_returns_empty ds lib fs u :
  u ∈ symbol_component_uuid -> status_code (fetch u) <> codes_ok ->
  create_symbol_ ds lib fs = (ReturnedEmpty, fs).
Proof.
  intros Hin Hko. unfold create_symbol.
  by rewrite (loop_failed _ _ _ u Hin Hko).
Qed.

Lemma loop_drawing fs (l : list text) st :
  Forall (fun u => ok u) l ->
  exists st',
    loop_ fs st l = Some st'
    /\ the_symbol st'
       = aggregate_drawing handlers
           (drawn_units fetch symbol_component_uuid (ComponentName st) l)
           (the_symbol st).
Proof.
  intros Hall. revert st; induction Hall as [|u l Hu _ IH]; intros st.
  - by exists st.
  - cbn [loop drawn_units]. rewrite body_ok by done.
    destruct (skipped_ u).
    + destruct (IH (headed st u)) as (st' & Hl & Hs). by exists st'.
    + destruct (IH (unit_ fs (content (fetch u)) (label st u) (headed st u)))
        as (st' & Hl & Hs).
      exists st'. split; [done|]. rewrite Hs. reflexivity.
Qed.

Lemma drawn_units_guarded name (l : list text) :
  map fst (drawn_units fetch symbol_component_uuid name l)
  = map (fun u => content (fetch u))
        (filter (fun u => skipped_ u = false) l).
Proof.
  revert name; induction l as [|u l IH]; intros name; [done|].
  cbn [drawn_units]. rewrite filter_cons.
  destruct (skipped_ u) eqn:Hskip.
  - rewrite decide_False by done. apply IH.
  - rewrite decide_True by done. cbn [map fst]. f_equal. apply IH.
Qed.

Lemma skipped_iff u :
  skipped_ u = false
  <-> ~ (2 <= length symbol_component_uuid
         /\ u = hd [] symbol_component_uuid).
Proof.
  unfold skipped, text_eqb. rewrite andb_false_iff, Nat.leb_gt.
  rewrite bool_decide_eq_false. split.
  - intros [Hlen|Hne] [Hl Hu]; [lia|done].
  - intros Hnot. destruct (decide (2 <= length symbol_component_uuid));
      [right|left; lia].
    intros Hu. by apply Hnot.
Qed.

(** C6, as amended: when every fetch succeeds, the loop ends and the drawing
    body of the record is the drawings, appended in list order, of the
    sub-parts that pass the guard: the sub-part of a list of one, and in a
    list of two or more every sub-part whose identifier is not the first
    identifier of the list.  A sub-part that the guard stops, the first one
    and any repetition of its identifier, adds nothing to the drawing. *)
Theorem drawing_of_guarded_sub_parts ds lib fs :
  Forall (fun u => status_code (fetch u) = codes_ok) symbol_component_uuid ->
  let units := drawn_units fetch symbol_component_uuid [] symbol_component_uuid in
  (exists st,
     loop_ fs (locals_init ds lib) symbol_component_uuid = Some st
     /\ the_symbol st = aggregate_drawing handlers units kicad_symbol_init)
  /\ map fst units
     = map (fun u => content (fetch u))
           (filter (fun u => ~ (2 <= length symbol_component_uuid
                                /\ u = hd [] symbol_component_uuid))
                   symbol_component_uuid).
Proof.
  intros Hall units. split.
  - apply (loop_drawing fs _ (locals_init ds lib) Hall).
  - unfold units. rewrite drawn_units_guarded. f_equal.
    apply list_filter_iff. intros u. apply skipped_iff.
Qed.

Lemma no_database fs :
  files fs !! jlcparts_db = None -> props_ fs = ∅.
Proof.
  intros H. unfold enrichment. rewrite H.
  rewrite bool_decide_eq_false_2; [done|]. by intros [? ?].
Qed.

Lemma no_value_field fs :
  files fs !! jlcparts_db = None
  \/ default [] (load_jlcparts_metadata jlcparts_db component_id !! txt "value") = [] ->
  default [] (props_ fs !! txt "value") = [].
Proof.
  intros [H|H].
  - by rewrite no_database.
  - unfold enrichment. destruct (bool_decide _); [done|]. by rewrite lookup_empty.
Qed.

Lemma skipped_is_first u :
  skipped_ u = true -> u = hd [] symbol_component_uuid.
Proof.
  unfold skipped, text_eqb. intros [_ H]%andb_true_iff.
  by apply bool_decide_eq_true in H.
Qed.

Lemma body_keeps_fallback fs st u st' :
  default [] (props_ fs !! txt "value") = [] ->
  ((forall v, value st = Some v -> v = ComponentName st)
   /\ (ComponentName st = [] -> title_of (hd [] symbol_component_uuid) = [])) ->
  body_ fs st u = Some st' ->
  (forall v, value st' = Some v -> v = ComponentName st')
  /\ (ComponentName st' = [] -> title_of (hd [] symbol_component_uuid) = []).
Proof.
  intros Hprops [Hv Hn] Hbody.
  destruct (decide (ok u)) as [Hok|Hko]; [|by rewrite body_failed in Hbody].
  rewrite body_ok in Hbody by done.
  destruct (skipped_ u) eqn:Hskip; injection Hbody as <-.
  - apply skipped_is_first in Hskip. subst u.
    unfold at_guard; cbv zeta; cbn [value ComponentName].
    destruct (ComponentName st) as [|c n] eqn:Hname; cbn [is_empty].
    + rewrite (Hn eq_refl). split; [|done].
      intros v Hval. by rewrite (Hv v Hval).
    + split; [done|]. done.
  - unfold render_unit, at_guard; cbv zeta; cbn [value ComponentName].
    rewrite Hprops. cbn [is_empty]. split.
    + by intros v [= <-].
    + destruct (ComponentName st) as [|c n] eqn:Hname; cbn [is_empty]; [|done].
      intros _. by apply Hn.
Qed.

Lemma loop_keeps_fallback fs (l : list text) st st' :
  default [] (props_ fs !! txt "value") = [] ->
  ((forall v, value st = Some v -> v = ComponentName st)
   /\ (ComponentName st = [] -> title_of (hd [] symbol_component_uuid) = [])) ->
  loop_ fs st l = Some st' ->
  (forall v, value st' = Some v -> v = ComponentName st')
  /\ (ComponentName st' = [] -> title_of (hd [] symbol_component_uuid) = []).
Proof.
  intros Hprops. revert st; induction l as [|u l IH]; intros st Hinv.
  - by intros [= <-].
  - cbn [loop]. destruct (body_ fs st u) as [st1|] eqn:Hbody; [|done].
    apply IH. by eapply body_keeps_fallback.
Qed.

Lemma loop_value_is_name fs (l : list text) ds lib st :
  default [] (props_ fs !! txt "value") = [] ->
  hd [] l = hd [] symbol_component_uuid ->
  loop_ fs (locals_init ds lib) l = Some st ->
  forall v, value st = Some v -> v = ComponentName st.
Proof.
  intros Hno Hhd Hloop. destruct l as [|u0 rest].
  - injection Hloop as <-. by intros v.
  - cbn [loop] in Hloop. cbn [hd] in Hhd.
    destruct (body_ fs (locals_init ds lib) u0) as [st1|] eqn:Hbody; [|done].
    refine (proj1 (loop_keeps_fallback fs rest st1 st Hno _ Hloop)).
    destruct (decide (ok u0)) as [Hok|Hko]; [|by rewrite body_failed in Hbody].
    rewrite body_ok in Hbody by done. rewrite <- Hhd.
    destruct (skipped_ u0); injection Hbody as <-.
    + unfold at_guard, locals_init; cbv zeta; cbn [value ComponentName is_empty].
      done.
    + unfold render_unit, at_guard, locals_init; cbv zeta;
        cbn [value ComponentName is_empty].
      rewrite Hno. cbn [is_empty]. split; [|done]. by intros v [= <-].
Qed.

(** C10, as amended: when there is no parts database, or the lookup gives
    no value or an empty one, the record that is rendered has the canonical
    component name as its Value; the Value is therefore empty exactly when
    that name is. *)
Theorem value_defaults_to_name ds lib fs st :
  files fs !! jlcparts_db = None
  \/ default [] (load_jlcparts_metadata jlcparts_db component_id !! txt "value") = [] ->
  loop_ fs (locals_init ds lib) symbol_component_uuid = Some st ->
  forall record,
    template_lib_component footprint_name component_id st = Some record ->
    exists prefix tvs,
      record
      = render_component (ComponentName st) (the_symbol st) prefix
          (ComponentName st) footprint_name (datasheet_link st) component_id tvs.
Proof.
  intros Hno%no_value_field Hloop record Hrec.
  pose proof (loop_value_is_name fs _ ds lib st Hno eq_refl Hloop) as Hv.
  unfold template_lib_component in Hrec.
  destruct (symmbol_prefix st) as [prefix|]; [|done].
  destruct (value st) as [v|] eqn:Hval; [|done].
  destruct (component_types_values st) as [tvs|]; [|done].
  injection Hrec as <-. rewrite (Hv v eq_refl). by exists prefix, tvs.
Qed.






End CreateSymbolFacts.

(** ** The properties at work in the small world *)

Section Instances.
Import Scenario.

Lemma other_records_untouched_witness :
  (files library_B_A_C !! lib_path
     = Some (template_lib_header ++ concat [record_B]
             ++ (record_opening (txt "A") ++ body_A ++ record_terminator)
             ++ [LF] ++ concat [record_C] ++ template_lib_footer)
   /\ record_place (txt "A") record_A'
        (template_lib_header ++ concat [record_B])
        (record_opening (txt "A") ++ body_A ++ record_terminator)
        ([LF] ++ concat [record_C] ++ template_lib_footer)
   /\ update_library (txt "lib") sym (txt "A") record_A' out false
        library_B_A_C
      = (Returned,
         write_file lib_path
           (template_lib_header ++ concat [record_B] ++ record_A' ++ [LF]
            ++ concat [record_C] ++ template_lib_footer)
           library_B_A_C))
  /\ (files library_B !! lib_path
       = Some (template_lib_header ++ concat [record_B] ++ [] ++ []
               ++ concat [] ++ template_lib_footer)
     /\ record_place (txt "A") record_A
          (template_lib_header ++ concat [record_B]) []
          ([] ++ concat [] ++ template_lib_footer)
     /\ update_library (txt "lib") sym (txt "A") record_A out false library_B
        = (Returned,
           write_file lib_path
             (template_lib_header ++ concat [record_B] ++ record_A ++ []
              ++ concat [] ++ template_lib_footer)
             library_B)).
Proof.
  assert (files library_B_A_C !! lib_path
          = Some (template_lib_header ++ concat [record_B]
                  ++ (record_opening (txt "A") ++ body_A ++ record_terminator)
                  ++ [LF] ++ concat [record_C] ++ template_lib_footer))
    as Hfile by (vm_compute; reflexivity).
  assert (record_place (txt "A") record_A'
            (template_lib_header ++ concat [record_B])
            (record_opening (txt "A") ++ body_A ++ record_terminator)
            ([LF] ++ concat [record_C] ++ template_lib_footer)) as Hplace
    by (apply place_of_record; vm_compute; reflexivity).
  assert (files library_B !! lib_path
          = Some (template_lib_header ++ concat [record_B] ++ [] ++ []
                  ++ concat [] ++ template_lib_footer))
    as Hfile' by (vm_compute; reflexivity).
  assert (record_place (txt "A") record_A
            (template_lib_header ++ concat [record_B]) []
            ([] ++ concat [] ++ template_lib_footer)) as Hplace'
    by (apply place_before_sentinel; vm_compute; reflexivity).
  split.
  - exact (conj Hfile (conj Hplace
             (other_records_untouched (txt "lib") sym (txt "A") record_A' out
                library_B_A_C template_lib_header [record_B] [record_C]
                _ [LF] template_lib_footer Hfile Hplace))).
  - exact (conj Hfile' (conj Hplace'
             (other_records_untouched (txt "lib") sym (txt "A") record_A out
                library_B template_lib_header [record_B] []
                [] [] template_lib_footer Hfile' Hplace'))).
Defined.

(** C2 fails as it is stated: a container holds a record A written on one
    line and, after it, a record B; merging a new text for A takes
    everything up to the terminator of B for the record A, and B is gone. *)
Lemma neighbour_record_lost :
  let before :=
    template_lib_header ++ one_line_A ++ record_B ++ template_lib_footer in
  let after := template_lib_header ++ record_A ++ LF :: template_lib_footer in
  files library_A_B !! lib_path = Some before
  /\ Py.contains record_B before = true
  /\ files (snd (update_library (txt "lib") sym (txt "A") record_A out false
                  library_A_B)) !! lib_path = Some after
  /\ Py.contains record_B after = false
  /\ Py.contains (record_mark (txt "B")) after = false.
Proof. repeat split; vm_compute; reflexivity. Qed.

Lemma skip_existing_leaves_file_witness :
  files library_B !! lib_path
    = Some (template_lib_header ++ record_B ++ template_lib_footer)
  /\ Py.contains (record_mark (txt "B"))
       (template_lib_header ++ record_B ++ template_lib_footer) = true
  /\ update_library (txt "lib") sym (txt "B") record_B' out true library_B
     = (Returned, library_B).
Proof.
  assert (files library_B !! lib_path
          = Some (template_lib_header ++ record_B ++ template_lib_footer))
    as Hfile by (vm_compute; reflexivity).
  assert (Py.contains (record_mark (txt "B"))
            (template_lib_header ++ record_B ++ template_lib_footer) = true)
    as Hin by (vm_compute; reflexivity).
  exact (conj Hfile (conj Hin
           (skip_existing_leaves_file (txt "lib") sym (txt "B") record_B' out
              library_B _ Hfile Hin))).
Defined.

Lemma insert_before_sentinel_witness :
  files library_B !! lib_path
    = Some (template_lib_header ++ record_B ++ template_lib_footer)
  /\ Py.contains (record_mark (txt "A"))
       (template_lib_header ++ record_B ++ template_lib_footer) = false
  /\ update_library (txt "lib") sym (txt "A") record_A out false library_B
     = (Returned,
        write_file lib_path
          (template_lib_header ++ record_B ++ record_A ++ template_lib_footer)
          library_B).
Proof.
  assert (files library_B !! lib_path
          = Some (template_lib_header ++ record_B ++ template_lib_footer))
    as Hfile by (vm_compute; reflexivity).
  assert (Py.contains (record_mark (txt "A"))
            (template_lib_header ++ record_B ++ template_lib_footer) = false)
    as Hno by (vm_compute; reflexivity).
  exact (conj Hfile (conj Hno
           (insert_before_sentinel (txt "lib") sym (txt "A") record_A out false
              library_B template_lib_header record_B Hfile Hno))).
Defined.

(** C7 fails as it is stated: a space and a period become an underscore,
    which is no bracketed token. *)
Lemma space_and_period_become_underscore :
  sanitized_title (txt "a b.c") = txt "a_b_c"
  /\ bracketed (sanitized_title (txt " ")) = false
  /\ bracketed (sanitized_title (txt ".")) = false
  /\ bracketed (sanitized_title (txt "/")) = true.
Proof. repeat split; reflexivity. Qed.




Lemma drawing_of_guarded_sub_parts_witness :
  Forall (fun u => status_code (fetch u) = codes_ok) [txt "u1"; txt "u2"]
  /\ (exists st,
        assemble [txt "u1"; txt "u2"] blank = Some st
        /\ the_symbol st
           = aggregate_drawing handlers
               (drawn_units fetch [txt "u1"; txt "u2"] []
                  [txt "u1"; txt "u2"])
               kicad_symbol_init)
  /\ map fst (drawn_units fetch [txt "u1"; txt "u2"] [] [txt "u1"; txt "u2"])
     = map (fun u => content (fetch u))
           (filter (fun u => ~ (2 <= length [txt "u1"; txt "u2"]
                                /\ u = hd [] [txt "u1"; txt "u2"]))
                   [txt "u1"; txt "u2"]).
Proof.
  assert (Forall (fun u => status_code (fetch u) = codes_ok)
            [txt "u1"; txt "u2"]) as Hall
    by (repeat constructor).
  split; [exact Hall|].
  exact (drawing_of_guarded_sub_parts fetch handlers no_metadata
           [txt "u1"; txt "u2"] sym out (txt "C100001") db [] (txt "lib")
           blank Hall).
Defined.

(** C6 fails as it is stated: of the two sub-parts u1 and u2, only u2 is
    drawn; the pin of u1, the first of the list, is not in the drawing. *)
Lemma first_sub_part_not_drawn :
  exists st,
    assemble [txt "u1"; txt "u2"] blank = Some st
    /\ drawing (the_symbol st)
       = LF :: txt "    (symbol " ++ quoted (txt "C{colon}0402_1")
         ++ LF :: txt "      (pin 2)" ++ LF :: txt "    )"
    /\ Py.contains (txt "(pin 1)") (drawing (the_symbol st)) = false
    /\ drawing (unit_drawing handlers resistor (txt "R_0603_0")
                  kicad_symbol_init)
       = LF :: txt "    (symbol " ++ quoted (txt "R_0603_0_1")
         ++ LF :: txt "      (pin 1)" ++ LF :: txt "    )".
Proof.
  eexists. split; [vm_compute; reflexivity|].
  repeat split; vm_compute; reflexivity.
Qed.

Lemma failed_fetch_returns_empty_witness :
  txt "zz" ∈ [txt "u1"; txt "zz"]
  /\ status_code (fetch (txt "zz")) <> codes_ok
  /\ run [txt "u1"; txt "zz"] false empty_library
     = (ReturnedEmpty, empty_library).
Proof.
  assert (txt "zz" ∈ [txt "u1"; txt "zz"]) as Hin
    by (apply elem_of_cons; right; apply elem_of_cons; by left).
  assert (status_code (fetch (txt "zz")) <> codes_ok) as Hko
    by (vm_compute; discriminate).
  exact (conj Hin (conj Hko
           (failed_fetch_returns_empty fetch handlers no_metadata
              [txt "u1"; txt "zz"] (txt "F1") sym out (txt "C100001") db
              false [] (txt "lib") empty_library (txt "zz") Hin Hko))).
Defined.

Lemma value_defaults_to_name_witness :
  (files blank !! db = None
   \/ default [] (no_metadata db (txt "C100001") !! txt "value") = [])
  /\ assemble [txt "u1"] blank = Some resistor_locals
  /\ template_lib_component (txt "F1") (txt "C100001") resistor_locals
     = Some resistor_record
  /\ exists prefix tvs,
       resistor_record
       = render_component (txt "R_0603") (the_symbol resistor_locals) prefix
           (txt "R_0603") (txt "F1") [] (txt "C100001") tvs.
Proof.
  assert (assemble [txt "u1"] blank = Some resistor_locals) as Hloop
    by (vm_compute; reflexivity).
  refine (conj (or_introl eq_refl) (conj Hloop (conj eq_refl _))).
  exact (value_defaults_to_name fetch handlers no_metadata [txt "u1"]
           (txt "F1") sym out (txt "C100001") db [] (txt "lib") blank
           resistor_locals (or_introl eq_refl) Hloop resistor_record eq_refl).
Defined.

(** C10 fails as it is stated: a component whose title is empty gets the
    empty canonical name, and with no parts database its Value property is
    the empty string. *)
Lemma empty_title_empty_value :
  exists content,
    files (snd (run [txt "u0"] false blank)) !! lib_path = Some content
    /\ Py.contains
         (txt "  (symbol " ++ quoted [] ++ txt " ") content = true
    /\ Py.contains
         (txt "(property " ++ quoted (txt "Value") ++ txt " " ++ quoted []
          ++ txt " (id 1)") content = true.
Proof.
  eexists. split; [vm_compute; reflexivity|].
  split; vm_compute; reflexivity.
Qed.

End Instances.

(** ** Further properties of the merge, the assembler and the sanitiser *)

Section MergeEdges.
Import PyFacts ReFacts.

Implicit Types (T R P c tail : text) (fs : filesystem).

Lemma rfind_from_absent ch (s : text) i last :
  ch ∉ s -> Py.rfind_from ch s i last = last.
Proof.
  revert i last; induction s as [|a s IH]; intros i last Hno; [done|].
  apply not_elem_of_cons in Hno as [Hne Hno]. simpl.
  destruct (Ascii.eqb_spec a ch) as [->|_]; [done|]. by apply IH.
Qed.

Lemma rfind_last ch (P tail : text) :
  ch ∉ tail -> Py.rfind ch (P ++ ch :: tail) = Z.of_nat (length P).
Proof.
  intros Hno. unfold Py.rfind. rewrite rfind_from_app. simpl.
  rewrite Ascii.eqb_refl. by rewrite rfind_from_absent.
Qed.


Lemma slice_to_length (P s : text) :
  Py.slice_to (P ++ s) (Z.of_nat (length P)) = P.
Proof.
  unfold Py.slice_to.
  assert ((Z.of_nat (length P) <? 0)%Z = false) as ->
    by (apply Z.ltb_ge; lia).
  by rewrite Nat2Z.id, take_app_length.
Qed.


(** Insertion writes from the start of the file and does not cut it: the
    new content ends at the sentinel put behind the record, and what the old
    file had further than that, behind its last closing parenthesis, stays
    behind the new sentinel. *)
Theorem insert_keeps_long_tail lib sp T R out skip fs P tail :
  files fs !! library_path out sp lib = Some (P ++ ")"%char :: tail) ->
  Py.contains (record_mark T) (P ++ ")"%char :: tail) = false ->
  ")"%char ∉ tail ->
  update_library lib sp T R out skip fs
  = (Returned,
     write_file (library_path out sp lib)
       (P ++ R ++ template_lib_footer ++ drop (S (length R)) tail) fs).
Proof.
  intros Hc Hno Htail. unfold update_library, update_library_edit.
  rewrite Hc, Hno, (rfind_last _ _ _ Htail), slice_to_length.
  do 2 f_equal. rewrite <- !app_assoc. do 3 f_equal.
  rewrite !length_app. simpl.
  replace (length P + (length R + 2)) with (length P + S (S (length R))) by lia.
  rewrite drop_app_add'; [|done]. simpl. done.
Qed.


Lemma search_without_opening T p (s : text) :
  record_pattern T = Some p ->
  Py.find (record_opening T) s = None ->
  Re.search p s = None.
Proof.
  intros Hp. induction s as [|a s IH]; cbn [Py.find Re.search].
  - rewrite (pattern_match_at T p _ Hp).
    by destruct (Py.startswith (record_opening T) []).
  - rewrite (pattern_match_at T p _ Hp).
    destruct (Py.startswith (record_opening T) (a :: s)); [done|].
    destruct (Py.find (record_opening T) s); [done|]. intros _.
    by rewrite IH.
Qed.

(** The text of the mark is in the file but the opening of a record of that
    name is not: the replacement finds nothing and the file is written back
    as it was; the record is not added. *)
Theorem replace_without_opening_changes_nothing lib sp T R out fs c :
  files fs !! library_path out sp lib = Some c ->
  Py.contains (record_mark T) c = true ->
  Re.literal_text T = true ->
  Re.literal_template R = true ->
  Py.find (record_opening T) c = None ->
  update_library lib sp T R out false fs = (Returned, fs).
Proof.
  intros Hc Hin HT HR Hopen. unfold update_library, update_library_edit.
  rewrite Hc, Hin.
  destruct (record_pattern T) as [p|] eqn:Hp;
    [|unfold record_pattern in Hp; by rewrite HT in Hp].
  rewrite HR. unfold Re.sub1. rewrite (search_without_opening T p c Hp Hopen).
  by rewrite write_same.
Qed.

(** [update_library] writes the library file and nothing else: every other
    file and the set of directories are as before. *)
Theorem update_library_touches_one_file lib sp T R out skip fs q :
  q <> library_path out sp lib ->
  files (snd (update_library lib sp T R out skip fs)) !! q = files fs !! q
  /\ dirs (snd (update_library lib sp T R out skip fs)) = dirs fs.
Proof.
  intros Hq. unfold update_library.
  destruct (files fs !! library_path out sp lib) as [c|]; [|done].
  destruct (update_library_edit T R skip c); simpl; try done.
  - split; [|done]. by rewrite lookup_insert_ne.
  - split; [|done]. by rewrite lookup_insert_ne.
Qed.

End MergeEdges.

Section AssemblerEdges.

Variable fetch : text -> response.
Variable handlers : text -> option handler.
Variable load_jlcparts_metadata : text -> text -> gmap text text.
Variable symbol_component_uuid : list text.
Variable footprint_name symbol_path output_dir component_id jlcparts_db : text.

Local Abbreviation body_ :=
  (loop_body fetch handlers load_jlcparts_metadata symbol_component_uuid
     symbol_path output_dir component_id jlcparts_db).
Local Abbreviation loop_ :=
  (loop fetch handlers load_jlcparts_metadata symbol_component_uuid
     symbol_path output_dir component_id jlcparts_db).
Local Abbreviation unit_ :=
  (render_unit handlers load_jlcparts_metadata symbol_path output_dir
     component_id jlcparts_db).
Local Abbreviation skipped_ := (skipped symbol_component_uuid).
Local Abbreviation props_ :=
  (enrichment load_jlcparts_metadata component_id jlcparts_db).
Local Abbreviation create_symbol_ skip :=
  (create_symbol fetch handlers load_jlcparts_metadata symbol_component_uuid
     footprint_name symbol_path output_dir component_id jlcparts_db skip).
Local Abbreviation ok u := (status_code (fetch u) = codes_ok).
Local Abbreviation title_of u := (sanitized_title (title (content (fetch u)))).
Local Abbreviation the_dir := (output_dir ++ txt "/" ++ symbol_path).

(** What one iteration does to each local. *)
Lemma body_inv fs st u st' :
  body_ fs st u = Some st' ->
  ok u
  /\ st' = (if skipped_ u then at_guard fetch st u
            else unit_ fs (content (fetch u)) (unit_label fetch st u)
                   (at_guard fetch st u)).
Proof.
  intros H. destruct (decide (ok u)) as [Hok|Hko].
  - rewrite body_ok in H by done. injection H as <-. done.
  - by rewrite body_failed in H.
Qed.

(** No sub-part drawn, no record. *)
Lemma loop_all_skipped fs (l : list text) st :
  Forall (fun u => ok u /\ skipped_ u = true) l ->
  value st = None ->
  exists st', loop_ fs st l = Some st' /\ value st' = None.
Proof.
  intros Hall. revert st; induction Hall as [|u l [Hok Hskip] _ IH]; intros st Hv.
  - by exists st.
  - cbn [loop]. rewrite body_ok, Hskip by done. by apply IH.
Qed.

(** When every sub-part is stopped by the guard (the list is empty, or all
    its identifiers are the first one, repeated), the locals of the record
    are never bound: the template raises and nothing is written. *)
Theorem nothing_drawn_is_a_name_error skip ds lib fs :
  Forall (fun u => status_code (fetch u) = codes_ok /\ skipped_ u = true)
    symbol_component_uuid ->
  create_symbol_ skip ds lib fs = (NameError, fs).
Proof.
  intros Hall. unfold create_symbol.
  destruct (loop_all_skipped fs _ (locals_init ds lib) Hall eq_refl)
    as (st & -> & Hv).
  unfold template_lib_component. rewrite Hv.
  by destruct (symmbol_prefix st).
Qed.

Lemma loop_name fs (l : list text) st st' :
  loop_ fs st l = Some st' ->
  ComponentName st'
  = if is_empty (ComponentName st)
    then first_nonempty (map (fun u => title_of u) l)
    else ComponentName st.
Proof.
  revert st; induction l as [|u l IH]; intros st; cbn [loop].
  - intros [= <-]. by destruct (ComponentName st).
  - destruct (body_ fs st u) as [st1|] eqn:Hbody; [|done].
    apply body_inv in Hbody as [_ ->]. intros Hloop.
    rewrite (IH _ Hloop). cbn [map first_nonempty].
    assert (ComponentName
              (if skipped_ u then at_guard fetch st u
               else unit_ fs (content (fetch u)) (unit_label fetch st u)
                      (at_guard fetch st u))
            = if is_empty (ComponentName st) then title_of u
              else ComponentName st) as ->
      by (by destruct (skipped_ u)).
    destruct (ComponentName st) as [|c n]; cbn [is_empty]; [|done].
    by destruct (title_of u).
Qed.

Lemma loop_ends fs (l : list text) st :
  Forall (fun u => ok u) l -> exists st', loop_ fs st l = Some st'.
Proof.
  intros Hall. destruct (loop_drawing fetch handlers load_jlcparts_metadata
    symbol_component_uuid symbol_path output_dir component_id jlcparts_db
    fs l st Hall) as (st' & H & _). by exists st'.
Qed.

(** The canonical name is the sanitised title of the first sub-part whose
    title is not empty, and is empty when there is none. *)
Theorem name_is_first_nonempty_title ds lib fs :
  Forall (fun u => status_code (fetch u) = codes_ok) symbol_component_uuid ->
  exists st,
    loop_ fs (locals_init ds lib) symbol_component_uuid = Some st
    /\ ComponentName st
       = first_nonempty (map (fun u => title_of u) symbol_component_uuid).
Proof.
  intros Hall. destruct (loop_ends fs _ (locals_init ds lib) Hall) as [st H].
  exists st. split; [done|]. by rewrite (loop_name _ _ _ _ H).
Qed.

Lemma replace_removes ch (s : text) : ch ∉ Py.replace ch [] s.
Proof.
  unfold Py.replace. induction s as [|a s IH]; simpl.
  - apply not_elem_of_nil.
  - destruct (Ascii.eqb_spec a ch) as [->|Hne]; simpl; [done|].
    apply not_elem_of_cons. split; [congruence|done].
Qed.

Lemma loop_prefix fs (l : list text) st st' :
  loop_ fs st l = Some st' ->
  symmbol_prefix st'
  = match last l with
    | Some u => Some (Py.replace "?"%char [] (pre (content (fetch u))))
    | None => symmbol_prefix st
    end.
Proof.
  revert st; induction l as [|u l IH]; intros st; cbn [loop].
  - by intros [= <-].
  - destruct (body_ fs st u) as [st1|] eqn:Hbody; [|done].
    apply body_inv in Hbody as [_ ->]. intros Hloop.
    rewrite (IH _ Hloop). destruct l as [|v l].
    2:{ change (last (u :: v :: l)) with (last (v :: l)).
        destruct (last (v :: l)) eqn:E; [done|]. by apply last_None in E. }
    cbn [last]. by destruct (skipped_ u).
Qed.

(** The reference prefix of the record is the one of the last sub-part of
    the list, drawn or not, with every question mark removed. *)
Theorem prefix_is_of_the_last_sub_part ds lib fs u :
  Forall (fun u => status_code (fetch u) = codes_ok) symbol_component_uuid ->
  last symbol_component_uuid = Some u ->
  exists st prefix,
    loop_ fs (locals_init ds lib) symbol_component_uuid = Some st
    /\ symmbol_prefix st = Some prefix
    /\ prefix = Py.replace "?"%char [] (pre (content (fetch u)))
    /\ "?"%char ∉ prefix.
Proof.
  intros Hall Hlast.
  destruct (loop_ends fs _ (locals_init ds lib) Hall) as [st Hloop].
  exists st. eexists. split; [done|].
  rewrite (loop_prefix _ _ _ _ Hloop), Hlast.
  split; [done|]. split; [done|]. apply replace_removes.
Qed.

Lemma draw_lines_known d (lines : list text) ks :
  fold_left (draw_line handlers d) lines ks
  = fold_left (draw_line handlers d)
      (filter (fun line => is_Some (handlers (hd [] (split "~"%char line))))
              lines) ks.
Proof.
  revert ks; induction lines as [|line lines IH]; intros ks; [done|].
  rewrite filter_cons. cbn [fold_left].
  destruct (decide (is_Some (handlers (hd [] (split "~"%char line)))))
    as [Hk|Hu].
  - cbn [fold_left]. apply IH.
  - rewrite IH. f_equal. unfold draw_line.
    destruct (handlers (hd [] (split "~"%char line))) eqn:E; [|done].
    destruct Hu. eauto.
Qed.

(** A drawing line whose primitive has no handler contributes nothing: the
    unit drawn is the one of the lines that have a handler. *)
Theorem unknown_primitives_are_skipped d component_title ks :
  unit_drawing handlers d component_title ks
  = unit_drawing handlers
      (ComponentData (title d) (pre d)
         (filter (fun line => is_Some (handlers (hd [] (split "~"%char line))))
                 (shape d))
         (head_x d) (head_y d) (c_para d))
      component_title ks.
Proof.
  unfold unit_drawing. cbn [shape]. f_equal.
  rewrite (draw_lines_known d (shape d)). reflexivity.
Qed.

(** The file name, once bound, is the path of the library. *)
Lemma loop_filename fs (l : list text) st st' :
  (forall f, filename st = Some f ->
     f = library_path output_dir symbol_path (library_name st)) ->
  loop_ fs st l = Some st' ->
  forall f, filename st' = Some f ->
    f = library_path output_dir symbol_path (library_name st').
Proof.
  revert st; induction l as [|u l IH]; intros st Hinv; cbn [loop].
  - by intros [= <-].
  - destruct (body_ fs st u) as [st1|] eqn:Hbody; [|done].
    apply body_inv in Hbody as [_ ->]. apply IH.
    destruct (skipped_ u); [exact Hinv|].
    unfold render_unit; cbv zeta; cbn [filename library_name].
    by intros f [= <-].
Qed.



Lemma startswith_split (w s : text) :
  Py.startswith w s = true -> s = w ++ drop (length w) s.
Proof.
  revert s; induction w as [|c w IH]; intros [|a s]; simpl; try done.
  intros [Hc Hw]%andb_true_iff. apply Ascii.eqb_eq in Hc as ->.
  f_equal. by apply IH.
Qed.

Lemma contains_split (w s : text) :
  Py.contains w s = true -> exists a b, s = a ++ w ++ b.
Proof.
  unfold Py.contains. induction s as [|c s IH]; cbn [Py.find].
  - destruct (Py.startswith w []) eqn:E; [|done]. intros _.
    exists [], (drop (length w) []). by apply startswith_split.
  - destruct (Py.startswith w (c :: s)) eqn:E.
    + intros _. exists [], (drop (length w) (c :: s)). by apply startswith_split.
    + destruct (Py.find w s); [|done]. intros _.
      destruct (IH eq_refl) as (a & b & ->). by exists (c :: a), b.
Qed.

Lemma contains_inside (w s a b : text) :
  Py.contains w s = true -> Py.contains w (a ++ s ++ b) = true.
Proof.
  intros (x & y & ->)%contains_split.
  replace (a ++ (x ++ w ++ y) ++ b) with ((a ++ x) ++ w ++ (y ++ b))
    by (by rewrite <- !app_assoc).
  apply PyFacts.contains_app.
Qed.

Lemma render_has_mark name ks prefix v fp ds cid tvs :
  Py.contains (record_mark name)
    (render_component name ks prefix v fp ds cid tvs) = true.
Proof.
  unfold render_component.
  rewrite (app_assoc (txt "  (symbol ")), (app_assoc _ (txt " ")).
  rewrite <- (app_assoc (txt "  (symbol ")).
  apply (mark_in_opening name []).
Qed.

(** After a call that returned, the library file holds the mark of the
    name, and nothing that existed has gone. *)
Lemma update_library_returned lib T R skip fs fs1 :
  Py.contains (record_mark T) R = true ->
  update_library lib symbol_path T R output_dir skip fs = (Returned, fs1) ->
  (exists c1,
     files fs1 !! library_path output_dir symbol_path lib = Some c1
     /\ Py.contains (record_mark T) c1 = true)
  /\ (forall q, path_exists q fs = true -> path_exists q fs1 = true)
  /\ (forall q, q <> library_path output_dir symbol_path lib ->
        files fs1 !! q = files fs !! q).
Proof.
  intros HR. unfold update_library.
  set (p := library_path output_dir symbol_path lib).
  destruct (files fs !! p) as [c|] eqn:Hc; [|done].
  assert (forall c' q, path_exists q fs = true ->
            path_exists q (write_file p c' fs) = true) as Hmono.
  { intros c' q. unfold path_exists, write_file; cbn [files dirs].
    intros [H|H]%orb_true_iff; apply orb_true_iff; [left|by right].
    apply bool_decide_eq_true in H. apply bool_decide_eq_true.
    destruct (decide (p = q)) as [->|Hne].
    - rewrite lookup_insert_eq. eauto.
    - by rewrite lookup_insert_ne. }
  unfold update_library_edit.
  destruct (Py.contains (record_mark T) c) eqn:Hin.
  - destruct skip.
    + intros [= <-]. split; [eauto|]. done.
    + destruct (record_pattern T) as [pat|]; [|done].
      destruct (Re.literal_template R); [|done].
      intros [= <-]. split; [|split].
      * eexists. split; [apply lookup_insert_eq|].
        unfold Re.sub1. destruct (Re.search pat c) as [[b a]|]; [|done].
        by apply contains_inside.
      * apply Hmono.
      * intros q Hq. cbn [write_file files]. by rewrite lookup_insert_ne.
  - intros [= <-]. split; [|split].
    + eexists. split; [apply lookup_insert_eq|].
      rewrite <- !app_assoc. apply contains_inside. done.
    + apply Hmono.
    + intros q Hq. cbn [write_file files]. by rewrite lookup_insert_ne.
Qed.

Lemma loop_same_database fs fs' (l : list text) st :
  files fs !! jlcparts_db = files fs' !! jlcparts_db ->
  loop_ fs st l = loop_ fs' st l.
Proof.
  intros Hdb.
  assert (forall d t s, unit_ fs d t s = unit_ fs' d t s) as Hunit.
  { intros d t s. unfold render_unit, enrichment. by rewrite Hdb. }
  revert st; induction l as [|u l IH]; intros st; [done|].
  cbn [loop].
  assert (body_ fs st u = body_ fs' st u) as ->.
  { unfold loop_body. by rewrite Hunit. }
  destruct (body_ fs' st u); [apply IH|done].
Qed.

(** A run that returned has put the record in its library: the same run
    again, with [skip_existing] set, returns and leaves the disk as it is. *)
Theorem rerun_with_skip_changes_nothing skip ds lib fs fs1 :
  (forall name, jlcparts_db <> library_path output_dir symbol_path name) ->
  create_symbol_ skip ds lib fs = (Returned, fs1) ->
  create_symbol_ true ds lib fs1 = (Returned, fs1).
Proof.
  intros Hdb. unfold create_symbol.
  destruct (loop_ fs (locals_init ds lib) symbol_component_uuid)
    as [st|] eqn:Hloop; [|done].
  destruct (template_lib_component footprint_name component_id st)
    as [record|] eqn:Hrec; [|done].
  destruct (filename st) as [f|] eqn:Hf; [|done].
  assert (f = library_path output_dir symbol_path (library_name st)) as ->.
  { eapply loop_filename; [|exact Hloop|exact Hf]. done. }
  set (p := library_path output_dir symbol_path (library_name st)).
  set (fsA := if path_exists the_dir fs then fs else makedirs the_dir fs).
  assert (files fsA = files fs) as HfilesA
    by (unfold fsA; by destruct (path_exists the_dir fs)).
  assert (Py.contains (record_mark (ComponentName st)) record = true) as Hmark.
  { unfold template_lib_component in Hrec.
    destruct (symmbol_prefix st), (value st), (component_types_values st);
      try done.
    injection Hrec as <-. apply render_has_mark. }
  intros Hrun0.
  (* the file system the merge ran on, with the directory in place *)
  assert (exists fsB,
            update_library (library_name st) symbol_path (ComponentName st)
              record output_dir skip fsB = (Returned, fs1)
            /\ is_dir the_dir fsB = true
            /\ files fsB !! jlcparts_db = files fs !! jlcparts_db)
    as (fsB & Hrun & HdirB & HdbB).
  { destruct (exists_in the_dir p fsA) eqn:Hex.
    - exists fsA. unfold exists_in in Hex.
      apply andb_true_iff in Hex as [Hd _]. by rewrite HfilesA.
    - destruct (is_dir the_dir fsA) eqn:Hd; [|done].
      eexists. split; [exact Hrun0|]. split; [exact Hd|].
      cbn [write_file files].
      rewrite lookup_insert_ne by (symmetry; apply Hdb). by rewrite HfilesA. }
  clear Hrun0.
  destruct (update_library_returned _ _ _ _ _ _ Hmark Hrun)
    as ((c1 & Hc1 & Hin) & Hmono & Hframe).
  fold p in Hc1.
  assert (dirs fs1 = dirs fsB) as Hdirs.
  { revert Hrun. unfold update_library.
    destruct (files fsB !! library_path output_dir symbol_path (library_name st));
      [|done].
    destruct (update_library_edit _ _ _ _); intros [= <-]; done. }
  assert (is_dir the_dir fs1 = true) as Hdir1
    by (unfold is_dir in *; by rewrite Hdirs).
  assert (path_exists the_dir fs1 = true) as Hpe.
  { unfold path_exists. unfold is_dir in Hdir1. rewrite Hdir1.
    apply orb_true_r. }
  assert (files fs1 !! jlcparts_db = files fs !! jlcparts_db) as Hsame
    by (by rewrite (Hframe _ (Hdb _))).
  rewrite (loop_same_database fs1 fs _ _ Hsame), Hloop, Hrec, Hf.
  rewrite Hpe. cbv iota. fold p.
  assert (exists_in the_dir p fs1 = true) as ->.
  { unfold exists_in. rewrite Hdir1. unfold path_exists. rewrite Hc1.
    by rewrite bool_decide_eq_true_2. }
  cbv iota. unfold update_library, update_library_edit. fold p.
  by rewrite Hc1, Hin.
Qed.

(** Everything the template reads is bound. *)
Lemma loop_stays_ready fs (l : list text) st :
  Forall (fun u => ok u) l ->
  is_Some (symmbol_prefix st) /\ is_Some (value st)
  /\ is_Some (component_types_values st) /\ is_Some (filename st) ->
  exists st',
    loop_ fs st l = Some st'
    /\ is_Some (symmbol_prefix st') /\ is_Some (value st')
    /\ is_Some (component_types_values st') /\ is_Some (filename st').
Proof.
  intros Hall. revert st; induction Hall as [|u l Hu _ IH]; intros st Hst.
  - by exists st.
  - cbn [loop]. rewrite body_ok by done. apply IH.
    destruct Hst as (_ & Hv & _ & Hf).
    destruct (skipped_ u); unfold render_unit, at_guard; cbv zeta;
      cbn [symmbol_prefix value component_types_values filename]; eauto 10.
Qed.

Lemma loop_gets_ready fs (l : list text) st :
  Forall (fun u => ok u) l ->
  Exists (fun u => skipped_ u = false) l ->
  exists st',
    loop_ fs st l = Some st'
    /\ is_Some (symmbol_prefix st') /\ is_Some (value st')
    /\ is_Some (component_types_values st') /\ is_Some (filename st').
Proof.
  intros Hall Hex. revert st.
  induction Hall as [|u l Hu Hall IH]; intros st.
  - by apply Exists_nil in Hex.
  - cbn [loop]. rewrite body_ok by done.
    destruct (skipped_ u) eqn:Hskip.
    + apply IH. apply Exists_cons in Hex as [Hex|Hex]; [congruence|done].
    + apply (loop_stays_ready fs l _ Hall).
      unfold render_unit, at_guard; cbv zeta;
        cbn [symmbol_prefix value component_types_values filename]; eauto 10.
Qed.

(** Where [output_dir/symbol_path] is a regular file, the directory is not
    made (the path exists), the library does not exist below it, and opening
    it for writing raises: nothing is written. *)
Theorem library_below_a_file_is_an_error skip ds lib fs :
  Forall (fun u => status_code (fetch u) = codes_ok) symbol_component_uuid ->
  Exists (fun u => skipped_ u = false) symbol_component_uuid ->
  is_Some (files fs !! the_dir) ->
  the_dir ∉ dirs fs ->
  create_symbol_ skip ds lib fs = (OSError, fs).
Proof.
  intros Hall Hex Hfile Hnodir. unfold create_symbol.
  destruct (loop_gets_ready fs _ (locals_init ds lib) Hall Hex)
    as (st & -> & [prefix Hp] & [v Hv] & [tvs Ht] & [f Hf]).
  unfold template_lib_component. rewrite Hp, Hv, Ht, Hf.
  assert (path_exists the_dir fs = true) as ->.
  { unfold path_exists. by rewrite bool_decide_eq_true_2. }
  assert (is_dir the_dir fs = false) as Hd
    by (unfold is_dir; by rewrite bool_decide_eq_false_2).
  unfold exists_in. by rewrite Hd.
Qed.

(** As soon as one sub-part passes the guard, the record is rendered: the
    run neither stops at an unbound local nor returns the empty result. *)
Theorem drawn_sub_part_binds_the_record skip ds lib fs :
  Forall (fun u => status_code (fetch u) = codes_ok) symbol_component_uuid ->
  Exists (fun u => skipped_ u = false) symbol_component_uuid ->
  fst (create_symbol_ skip ds lib fs) <> NameError
  /\ fst (create_symbol_ skip ds lib fs) <> ReturnedEmpty.
Proof.
  intros Hall Hex. unfold create_symbol.
  destruct (loop_gets_ready fs _ (locals_init ds lib) Hall Hex)
    as (st & -> & [prefix Hp] & [v Hv] & [tvs Ht] & [f Hf]).
  unfold template_lib_component. rewrite Hp, Hv, Ht, Hf.
  assert (forall lib' T R fs',
            fst (update_library lib' symbol_path T R output_dir skip fs')
              <> NameError
            /\ fst (update_library lib' symbol_path T R output_dir skip fs')
              <> ReturnedEmpty) as Hup.
  { intros lib' T R fs'. unfold update_library.
    destruct (files fs' !! _) as [c|]; [|done].
    by destruct (update_library_edit T R skip c). }
  destruct (exists_in _ _ _); [apply Hup|].
  destruct (is_dir _ _); [apply Hup|done].
Qed.

End AssemblerEdges.

Section Sanitiser.

Lemma sanitized_app (a b : text) :
  sanitized_title (a ++ b) = sanitized_title a ++ sanitized_title b.
Proof.
  induction a as [|c a IH]; [done|].
  change ((c :: a) ++ b) with (c :: (a ++ b)).
  rewrite (sanitized_cons c (a ++ b)), (sanitized_cons c a), IH.
  by rewrite app_assoc.
Qed.

Lemma escape_token_safe (x c : ascii) :
  c ∈ escape_token x -> c ∉ unsafe_characters.
Proof.
  intros Hin Hun.
  assert (forallb (fun c => negb (existsb (Ascii.eqb c) unsafe_characters))
            (escape_token x) = true) as Hall
    by (destruct x as [[] [] [] [] [] [] [] []]; reflexivity).
  rewrite forallb_forall in Hall.
  apply list_elem_of_In in Hin. specialize (Hall c Hin).
  apply negb_true_iff in Hall.
  assert (existsb (Ascii.eqb c) unsafe_characters = true) as E.
  { apply existsb_exists. exists c. split; [by apply list_elem_of_In|].
    apply Ascii.eqb_refl. }
  congruence.
Qed.

Lemma sanitized_title_safe (t : text) (c : ascii) :
  c ∈ unsafe_characters -> c ∉ sanitized_title t.
Proof.
  intros Hun. induction t as [|x t IH].
  - apply not_elem_of_nil.
  - rewrite (sanitized_cons x t), sanitized_char.
    intros [Hin|Hin]%elem_of_app.
    + by apply (escape_token_safe x c).
    + by apply IH.
Qed.
(** No space, period, slash, backslash, angle bracket, colon or double quote
    is left in a sanitised title. *)
Theorem sanitized_title_has_no_unsafe_character (t : text) (c : ascii) :
  c ∈ unsafe_characters -> c ∉ sanitized_title t.
Proof. apply sanitized_title_safe. Qed.

Lemma escape_token_of_safe (c : ascii) :
  c ∉ unsafe_characters -> escape_token c = [c].
Proof.
  intros Hsafe.
  destruct (existsb (Ascii.eqb c) unsafe_characters) eqn:E.
  - apply existsb_exists in E as (x & Hx & Heq).
    apply Ascii.eqb_eq in Heq as <-. destruct Hsafe. by apply list_elem_of_In.
  - revert E. clear Hsafe. destruct c as [[] [] [] [] [] [] [] []];
      first [reflexivity | discriminate].
Qed.

(** Sanitising a sanitised title changes nothing. *)
Theorem sanitized_title_twice (t : text) :
  sanitized_title (sanitized_title t) = sanitized_title t.
Proof.
  assert (forall s : text, (forall c, c ∈ s -> c ∉ unsafe_characters) ->
            sanitized_title s = s) as Hfix.
  { induction s as [|c s IH]; intros Hs; [done|].
    rewrite (sanitized_cons c s), sanitized_char.
    rewrite escape_token_of_safe by (apply Hs; by left).
    rewrite IH; [done|]. intros x Hx. apply Hs. by right. }
  apply Hfix. intros c Hin Hun.
  by apply (sanitized_title_safe t c).
Qed.

(** The sanitiser is not injective: a space, a period and an underscore at
    the same place give the same name. *)
Theorem separators_collide (a b : text) :
  sanitized_title (a ++ " "%char :: b) = sanitized_title (a ++ "_"%char :: b)
  /\ sanitized_title (a ++ "."%char :: b) = sanitized_title (a ++ "_"%char :: b).
Proof.
  rewrite (sanitized_app a (" "%char :: b)), (sanitized_app a ("."%char :: b)),
    (sanitized_app a ("_"%char :: b)).
  rewrite (sanitized_cons " "%char b), (sanitized_cons "."%char b),
    (sanitized_cons "_"%char b).
  rewrite (sanitized_char " "%char), (sanitized_char "."%char),
    (sanitized_char "_"%char).
  done.
Qed.

End Sanitiser.

Section PropertyBlock.

Lemma join_cons sep (p : text) (l : list text) :
  l <> [] -> Py.join sep (p :: l) = p ++ sep ++ Py.join sep l.
Proof. by destruct l. Qed.

Lemma join_app sep (l1 l2 : list text) :
  l1 <> [] -> l2 <> [] ->
  Py.join sep (l1 ++ l2) = Py.join sep l1 ++ sep ++ Py.join sep l2.
Proof.
  intros H1 H2. induction l1 as [|p l1 IH]; [done|].
  destruct l1 as [|q l1].
  - change ([p] ++ l2) with (p :: l2). by rewrite join_cons.
  - change ((p :: q :: l1) ++ l2) with (p :: ((q :: l1) ++ l2)).
    rewrite join_cons by done. rewrite IH by done.
    rewrite (join_cons sep p (q :: l1)) by done. by rewrite <- !app_assoc.
Qed.

Lemma enumerate_from_app {A} i (l1 l2 : list A) :
  Py.enumerate_from i (l1 ++ l2)
  = Py.enumerate_from i l1
    ++ Py.enumerate_from (i + Z.of_nat (length l1)) l2.
Proof.
  revert i; induction l1 as [|x l1 IH]; intros i; cbn [app Py.enumerate_from length].
  - f_equal. lia.
  - rewrite IH. do 3 f_equal. lia.
Qed.

Lemma entries_shift (start j i : Z) (l : list (text * text)) :
  map (fun it : Z * (text * text) => property_entry (snd it) (start + fst it))
      (Py.enumerate_from (i + j) l)
  = map (fun it : Z * (text * text) =>
           property_entry (snd it) (start + j + fst it))
        (Py.enumerate_from i l).
Proof.
  revert i; induction l as [|x l IH]; intros i; [done|].
  cbn [Py.enumerate_from map fst snd]. f_equal.
  - f_equal. lia.
  - replace (i + j + 1)%Z with (i + 1 + j)%Z by lia. apply IH.
Qed.

(** The property block of two lists in a row is the block of the first, a
    line feed, and the block of the second with its identifiers started
    after those of the first. *)
Theorem properties_of_appended_lists start (l1 l2 : list (text * text)) :
  l1 <> [] -> l2 <> [] ->
  get_type_values_properties start (l1 ++ l2)
  = get_type_values_properties start l1 ++ [LF]
    ++ get_type_values_properties (start + Z.of_nat (length l1)) l2.
Proof.
  intros H1 H2. unfold get_type_values_properties, Py.enumerate.
  rewrite enumerate_from_app, map_app, join_app.
  - do 2 f_equal. f_equal. apply (entries_shift start (Z.of_nat (length l1)) 0).
  - by destruct l1.
  - by destruct l2.
Qed.

End PropertyBlock.

(** ** Instances of the further properties *)

Section MoreInstances.
Import Scenario Cases.

Lemma library_path_length (o sp name : text) :
  length (library_path o sp name)
  = length o + length sp + length name + 12.
Proof. unfold library_path. rewrite !length_app. simpl. lia. Qed.

Lemma db_is_no_library name : db <> library_path out sym name.
Proof.
  intros H. apply (f_equal length) in H. rewrite library_path_length in H.
  simpl in H. lia.
Qed.

Lemma insert_keeps_long_tail_witness :
  files library_with_note !! lib_path
    = Some (template_lib_header ++ ")"%char :: note)
  /\ Py.contains (record_mark (txt "X")) (template_lib_header ++ ")"%char :: note)
     = false
  /\ (")"%char ∉ note)
  /\ update_library (txt "lib") sym (txt "X") (txt "(x)") out false
       library_with_note
     = (Returned,
        write_file lib_path
          (template_lib_header ++ txt "(x)" ++ template_lib_footer
           ++ txt "hecked by hand, keep this line")
          library_with_note).
Proof.
  assert (")"%char ∉ note) as Hnote
    by (apply (bool_decide_unpack _); vm_compute; exact I).
  refine (conj eq_refl (conj eq_refl (conj Hnote _))).
  exact (insert_keeps_long_tail (txt "lib") sym (txt "X") (txt "(x)") out false
           library_with_note template_lib_header note eq_refl eq_refl Hnote).
Defined.


Lemma replace_without_opening_changes_nothing_witness :
  files library_resistor !! lib_path
    = Some (template_lib_header ++ resistor_record ++ template_lib_footer)
  /\ Py.contains (record_mark (txt "R_0603_0_1"))
       (template_lib_header ++ resistor_record ++ template_lib_footer) = true
  /\ Re.literal_text (txt "R_0603_0_1") = true
  /\ Re.literal_template unit_namesake_record = true
  /\ Py.find (record_opening (txt "R_0603_0_1"))
       (template_lib_header ++ resistor_record ++ template_lib_footer) = None
  /\ update_library (txt "lib") sym (txt "R_0603_0_1") unit_namesake_record
       out false library_resistor
     = (Returned, library_resistor).
Proof.
  assert (files library_resistor !! lib_path
          = Some (template_lib_header ++ resistor_record ++ template_lib_footer))
    as H1 by (vm_compute; reflexivity).
  assert (Py.contains (record_mark (txt "R_0603_0_1"))
            (template_lib_header ++ resistor_record ++ template_lib_footer)
          = true) as H2 by (vm_compute; reflexivity).
  assert (Re.literal_text (txt "R_0603_0_1") = true) as H3
    by (vm_compute; reflexivity).
  assert (Re.literal_template unit_namesake_record = true) as H4
    by (vm_compute; reflexivity).
  assert (Py.find (record_opening (txt "R_0603_0_1"))
            (template_lib_header ++ resistor_record ++ template_lib_footer)
          = None) as H5 by (vm_compute; reflexivity).
  exact (conj H1 (conj H2 (conj H3 (conj H4 (conj H5
           (replace_without_opening_changes_nothing (txt "lib") sym
              (txt "R_0603_0_1") unit_namesake_record out library_resistor
              _ H1 H2 H3 H4 H5)))))).
Defined.

Lemma update_library_touches_one_file_witness :
  db <> library_path out sym (txt "lib")
  /\ files (snd (update_library (txt "lib") sym (txt "A") record_A out false
                  library_B)) !! db = files library_B !! db
  /\ dirs (snd (update_library (txt "lib") sym (txt "A") record_A out false
                 library_B)) = dirs library_B.
Proof.
  exact (conj (db_is_no_library (txt "lib"))
           (update_library_touches_one_file (txt "lib") sym (txt "A") record_A
              out false library_B db (db_is_no_library (txt "lib")))).
Defined.

Lemma nothing_drawn_is_a_name_error_witness :
  Forall (fun u => status_code (fetch u) = codes_ok
                   /\ skipped [txt "u1"; txt "u1"] u = true)
    [txt "u1"; txt "u1"]
  /\ run [txt "u1"; txt "u1"] false blank = (NameError, blank).
Proof.
  assert (Forall (fun u => status_code (fetch u) = codes_ok
                           /\ skipped [txt "u1"; txt "u1"] u = true)
            [txt "u1"; txt "u1"]) as Hall
    by (repeat constructor).
  exact (conj Hall
           (nothing_drawn_is_a_name_error fetch handlers no_metadata
              [txt "u1"; txt "u1"] (txt "F1") sym out (txt "C100001") db
              false [] (txt "lib") blank Hall)).
Defined.

Lemma name_is_first_nonempty_title_witness :
  Forall (fun u => status_code (fetch u) = codes_ok) [txt "u0"; txt "u2"]
  /\ exists st,
       assemble [txt "u0"; txt "u2"] blank = Some st
       /\ ComponentName st = txt "C{colon}0402".
Proof.
  assert (Forall (fun u => status_code (fetch u) = codes_ok)
            [txt "u0"; txt "u2"]) as Hall by (repeat constructor).
  exact (conj Hall
           (name_is_first_nonempty_title fetch handlers no_metadata
              [txt "u0"; txt "u2"] sym out (txt "C100001") db [] (txt "lib")
              blank Hall)).
Defined.

Lemma prefix_is_of_the_last_sub_part_witness :
  Forall (fun u => status_code (fetch u) = codes_ok)
    [txt "u1"; txt "u2"; txt "u1"]
  /\ last [txt "u1"; txt "u2"; txt "u1"] = Some (txt "u1")
  /\ exists st prefix,
       assemble [txt "u1"; txt "u2"; txt "u1"] blank = Some st
       /\ symmbol_prefix st = Some prefix
       /\ prefix = txt "R"
       /\ "?"%char ∉ prefix.
Proof.
  assert (Forall (fun u => status_code (fetch u) = codes_ok)
            [txt "u1"; txt "u2"; txt "u1"]) as Hall by (repeat constructor).
  exact (conj Hall (conj eq_refl
           (prefix_is_of_the_last_sub_part fetch handlers no_metadata
              [txt "u1"; txt "u2"; txt "u1"] sym out (txt "C100001") db []
              (txt "lib") blank (txt "u1") Hall eq_refl))).
Defined.


Lemma rerun_with_skip_changes_nothing_witness :
  (forall name, db <> library_path out sym name)
  /\ run [txt "u1"] false blank = (Returned, after_first_run)
  /\ run [txt "u1"] true after_first_run = (Returned, after_first_run).
Proof.
  assert (run [txt "u1"] false blank = (Returned, after_first_run)) as Hrun
    by (vm_compute; reflexivity).
  exact (conj db_is_no_library (conj Hrun
           (rerun_with_skip_changes_nothing fetch handlers no_metadata
              [txt "u1"] (txt "F1") sym out (txt "C100001") db false []
              (txt "lib") blank after_first_run db_is_no_library Hrun))).
Defined.

Lemma library_below_a_file_is_an_error_witness :
  Forall (fun u => status_code (fetch u) = codes_ok) [txt "u1"]
  /\ Exists (fun u => skipped [txt "u1"] u = false) [txt "u1"]
  /\ is_Some (files under_file !! (out ++ txt "/" ++ sym))
  /\ (out ++ txt "/" ++ sym ∉ dirs under_file)
  /\ run [txt "u1"] false under_file = (OSError, under_file).
Proof.
  assert (Forall (fun u => status_code (fetch u) = codes_ok) [txt "u1"])
    as Hall by (repeat constructor).
  assert (Exists (fun u => skipped [txt "u1"] u = false) [txt "u1"]) as Hex
    by (by left).
  assert (is_Some (files under_file !! (out ++ txt "/" ++ sym))) as Hfile
    by (vm_compute; eauto).
  assert (out ++ txt "/" ++ sym ∉ dirs under_file) as Hnodir
    by (apply not_elem_of_empty).
  exact (conj Hall (conj Hex (conj Hfile (conj Hnodir
           (library_below_a_file_is_an_error fetch handlers no_metadata
              [txt "u1"] (txt "F1") sym out (txt "C100001") db false []
              (txt "lib") under_file Hall Hex Hfile Hnodir))))).
Defined.

Lemma drawn_sub_part_binds_the_record_witness :
  Forall (fun u => status_code (fetch u) = codes_ok) [txt "u1"; txt "u2"]
  /\ Exists (fun u => skipped [txt "u1"; txt "u2"] u = false)
       [txt "u1"; txt "u2"]
  /\ fst (run [txt "u1"; txt "u2"] false blank) <> NameError
  /\ fst (run [txt "u1"; txt "u2"] false blank) <> ReturnedEmpty.
Proof.
  assert (Forall (fun u => status_code (fetch u) = codes_ok)
            [txt "u1"; txt "u2"]) as Hall by (repeat constructor).
  assert (Exists (fun u => skipped [txt "u1"; txt "u2"] u = false)
            [txt "u1"; txt "u2"]) as Hex
    by (right; left; vm_compute; reflexivity).
  exact (conj Hall (conj Hex
           (drawn_sub_part_binds_the_record fetch handlers no_metadata
              [txt "u1"; txt "u2"] (txt "F1") sym out (txt "C100001") db
              false [] (txt "lib") blank Hall Hex))).
Defined.

Lemma sanitized_title_has_no_unsafe_character_witness :
  DQ ∈ unsafe_characters
  /\ DQ ∉ sanitized_title (txt "3.3V <out> a/b" ++ [DQ]).
Proof.
  assert (DQ ∈ unsafe_characters) as Hin
    by (apply (bool_decide_unpack _); vm_compute; exact I).
  exact (conj Hin
           (sanitized_title_has_no_unsafe_character
              (txt "3.3V <out> a/b" ++ [DQ]) DQ Hin)).
Defined.

Lemma properties_of_appended_lists_witness :
  [(txt "Resistance", txt "10k")] <> []
  /\ [(txt "JLCDescription", @nil ascii); (txt "Manufacturer", [])] <> []
  /\ get_type_values_properties 6
       ([(txt "Resistance", txt "10k")]
        ++ [(txt "JLCDescription", []); (txt "Manufacturer", [])])
     = get_type_values_properties 6 [(txt "Resistance", txt "10k")] ++ [LF]
       ++ get_type_values_properties (6 + Z.of_nat 1)
            [(txt "JLCDescription", []); (txt "Manufacturer", [])].
Proof.
  assert ([(txt "Resistance", txt "10k")] <> []) as H1 by discriminate.
  assert ([(txt "JLCDescription", @nil ascii); (txt "Manufacturer", [])] <> [])
    as H2 by discriminate.
  exact (conj H1 (conj H2
           (properties_of_appended_lists 6 [(txt "Resistance", txt "10k")]
              [(txt "JLCDescription", []); (txt "Manufacturer", [])] H1 H2))).
Defined.

End MoreInstances.
